(** * ARPlanes: mirroring device-reported planes into scene-graph geometry

    A shallow embedding of [src/ARPlanes.js].  The class keeps two JavaScript
    [Map]s keyed by plane identifier ([planes] and [materialMap]) and the
    [children] array it inherits from three.js' [Object3D]; three event
    handlers drive the closures [addPlane] and [removePlane], and [createPlane]
    builds the renderable of one plane.  Mutation is modelled by explicit state
    passing in a small state monad; maps are stdpp [gmap]s, arrays are lists
    read with [!!] (a read past the end is JavaScript's [undefined]). *)

From Stdlib Require Import PrimFloat ZArith Lia.
From stdpp Require Import gmap strings list fin_maps.

Open Scope float_scope.
Open Scope nat_scope.

#[local] Set Warnings "-inexact-float,-clear-no-such-hyp".

(** ** JavaScript values *)

(** A JavaScript number is an IEEE double.  The code only copies numbers. *)
Abbreviation number := float (only parsing).

(** The result of an array read [a[i]]: [None] is [undefined]. *)
Abbreviation value := (option float) (only parsing).

(** ** The device's plane description *)

Record Plane := mkPlane {
  identifier : string;
  vertices : list number;
  modelMatrix : list number
}.

(** ** The three.js objects the code builds *)

Inductive Color := mkColor (hex : N).

Record Vector3 := mkVector3 { vx : value; vy : value; vz : value }.

Record Quaternion := mkQuaternion { qx : value; qy : value; qz : value; qw : value }.

Record Face3 := mkFace3 { face_a : nat; face_b : nat; face_c : nat }.

Record Geometry := mkGeometry {
  geo_vertices : list Vector3;
  geo_faces : list Face3
}.

Record Matrix4 := mkMatrix4 { elements : list value }.

Inductive Side := FrontSide | BackSide | DoubleSide.

Record Uniforms := mkUniforms {
  dotColor : Color;
  lineColor : Color;
  backgroundColor : Color;
  dotRadius : number;
  alpha : number
}.

(** three.js numbers every material and every [Object3D] from a module-level
    counter ([id]); two objects are the same reference exactly when their
    [id]s agree. *)
Record RawShaderMaterial := mkMaterial {
  material_id : nat;
  side : Side;
  transparent : bool;
  uniforms : Uniforms
}.

Record Mesh := mkMesh {
  mesh_id : nat;
  mesh_geometry : Geometry;
  mesh_material : RawShaderMaterial
}.

(** The node [createPlane] returns: an [Object3D] whose only child is the
    mesh. *)
Record Object3D := mkObject3D {
  obj_id : nat;
  position : Vector3;
  quaternion : Quaternion;
  scale : Vector3;
  matrix : Matrix4;
  matrixAutoUpdate : bool;
  obj_children : list Mesh
}.

(** ** State *)

(** The fields of an [ARPlanes] instance that the handlers touch, together
    with the ambient counters they advance: three.js' [object3DId] and
    [materialId], and the number of calls made to [getRandomPaletteColor]. *)
Record ARPlanes := mkARPlanes {
  children : list Object3D;
  planes : gmap string Object3D;
  materialMap : gmap string RawShaderMaterial;
  object3DId : nat;
  materialId : nat;
  paletteDraws : nat
}.

Definition set_children (f : list Object3D → list Object3D) (s : ARPlanes) : ARPlanes :=
  mkARPlanes (f (children s)) (planes s) (materialMap s)
             (object3DId s) (materialId s) (paletteDraws s).

Definition set_planes (f : gmap string Object3D → gmap string Object3D)
    (s : ARPlanes) : ARPlanes :=
  mkARPlanes (children s) (f (planes s)) (materialMap s)
             (object3DId s) (materialId s) (paletteDraws s).

Definition set_materialMap
    (f : gmap string RawShaderMaterial → gmap string RawShaderMaterial)
    (s : ARPlanes) : ARPlanes :=
  mkARPlanes (children s) (planes s) (f (materialMap s))
             (object3DId s) (materialId s) (paletteDraws s).

(** ** The monad of handler code *)

Definition JS (A : Type) : Type := ARPlanes → A * ARPlanes.

#[global] Instance JS_ret : MRet JS := λ A a s, (a, s).
#[global] Instance JS_bind : MBind JS :=
  λ A B f c s, let '(a, s') := c s in f a s'.

Definition gets {A} (f : ARPlanes → A) : JS A := λ s, (f s, s).
Definition modify (f : ARPlanes → ARPlanes) : JS unit := λ s, (tt, f s).
Definition exec {A} (c : JS A) (s : ARPlanes) : ARPlanes := (c s).2.
Definition eval {A} (c : JS A) (s : ARPlanes) : A := (c s).1.

(** [for (let x of xs) body(x)] and [xs.forEach(body)]. *)
Fixpoint for_of {A} (xs : list A) (body : A → JS unit) : JS unit :=
  match xs with
  | [] => mret tt
  | x :: rest => body x ≫= λ _, for_of rest body
  end.

(** [for (let i = start; cond(i); i++) acc = body(i, acc)], with the number of
    iterations bounded by [fuel]. *)
Fixpoint for_loop {A} (fuel : nat) (cond : nat → bool) (body : nat → A → A)
    (i : nat) (acc : A) : A :=
  match fuel with
  | 0 => acc
  | S fuel' =>
      if cond i then for_loop fuel' cond body (S i) (body i acc) else acc
  end.

(** ** three.js primitives *)

(** [new Matrix4()] is the identity. *)
Definition Matrix4_identity : Matrix4 :=
  mkMatrix4 (Some <$> [1; 0; 0; 0;  0; 1; 0; 0;  0; 0; 1; 0;  0; 0; 0; 1]%float).

(** [Matrix4.set] takes its arguments row by row and stores them in the
    column-major [elements] array. *)
Definition Matrix4_set (m : Matrix4)
    (n11 n12 n13 n14 n21 n22 n23 n24 n31 n32 n33 n34 n41 n42 n43 n44 : value)
    : Matrix4 :=
  let te := elements m in
  let te := <[0 := n11]> te in let te := <[4 := n12]> te in
  let te := <[8 := n13]> te in let te := <[12 := n14]> te in
  let te := <[1 := n21]> te in let te := <[5 := n22]> te in
  let te := <[9 := n23]> te in let te := <[13 := n24]> te in
  let te := <[2 := n31]> te in let te := <[6 := n32]> te in
  let te := <[10 := n33]> te in let te := <[14 := n34]> te in
  let te := <[3 := n41]> te in let te := <[7 := n42]> te in
  let te := <[11 := n43]> te in let te := <[15 := n44]> te in
  mkMatrix4 te.

(** [x || 0] on a coordinate: [undefined], [NaN], [0] and [-0] are falsy and
    give [0], any other number is kept. *)
Definition or_zero (x : value) : number :=
  match x with
  | Some x => if PrimFloat.is_nan x || PrimFloat.is_zero x then 0%float else x
  | None => 0%float
  end.

(** [new Vector3(x, y, z)] stores [x || 0], [y || 0] and [z || 0]. *)
Definition new_Vector3 (x y z : value) : Vector3 :=
  mkVector3 (Some (or_zero x)) (Some (or_zero y)) (Some (or_zero z)).

(** [new Object3D()]: the next id, the neutral position, rotation and scale,
    the identity matrix, [matrixAutoUpdate] on and no children. *)
Definition new_Object3D : JS Object3D := λ s,
  (mkObject3D (object3DId s)
     (mkVector3 (Some 0%float) (Some 0%float) (Some 0%float))
     (mkQuaternion (Some 0%float) (Some 0%float) (Some 0%float) (Some 1%float))
     (mkVector3 (Some 1%float) (Some 1%float) (Some 1%float))
     Matrix4_identity true [],
   mkARPlanes (children s) (planes s) (materialMap s)
              (S (object3DId s)) (materialId s) (paletteDraws s)).

(** [new Mesh(geo, material)]: a mesh is an [Object3D] too and takes an id. *)
Definition new_Mesh (geo : Geometry) (material : RawShaderMaterial) : JS Mesh := λ s,
  (mkMesh (object3DId s) geo material,
   mkARPlanes (children s) (planes s) (materialMap s)
              (S (object3DId s)) (materialId s) (paletteDraws s)).

(** [indexOf] on [children] compares references. *)
Definition same_object (o o' : Object3D) : bool := obj_id o =? obj_id o'.

(** [children.splice(children.indexOf(o), 1)] when the index is not [-1]. *)
Fixpoint splice_first (o : Object3D) (l : list Object3D) : list Object3D :=
  match l with
  | [] => []
  | o' :: rest => if same_object o' o then rest else o' :: splice_first o rest
  end.

(** [this.add(object)] for an object that has no parent yet: it is pushed on
    [children]. *)
Definition Object3D_add (o : Object3D) : JS unit :=
  modify (set_children (λ l, l ++ [o])).

(** [this.remove(object)]. *)
Definition Object3D_remove (o : Object3D) : JS unit :=
  modify (set_children (splice_first o)).

(** ** ARPlanes.js *)

(** The module-level template material; it is the first material made, so it
    has id 0. *)
Definition DEFAULT_MATERIAL : RawShaderMaterial :=
  mkMaterial 0 DoubleSide true
    (mkUniforms (mkColor 0xffffff) (mkColor 0x707070) (mkColor 0x404040)
                0.006666666667%float 0.4%float).

(** [material.clone()]: a new material (next id) with copies of the settings
    and uniforms of [material]. *)
Definition Material_clone (material : RawShaderMaterial) : JS RawShaderMaterial := λ s,
  (mkMaterial (materialId s) (side material) (transparent material) (uniforms material),
   mkARPlanes (children s) (planes s) (materialMap s)
              (object3DId s) (S (materialId s)) (paletteDraws s)).

Definition set_backgroundColor (c : Color) (m : RawShaderMaterial) : RawShaderMaterial :=
  let u := uniforms m in
  mkMaterial (material_id m) (side m) (transparent m)
    (mkUniforms (dotColor u) (lineColor u) c (dotRadius u) (alpha u)).

(** The vertex loop of [createPlane]:
    [for (pt = 0; pt < plane.vertices.length / 3; pt++) geo.vertices.push(...)].
    The division is a division of numbers, so [pt < length / 3] holds exactly
    when [3 * pt < length].  Each point goes through the [Vector3]
    constructor. *)
Definition generate_vertices (vs : list number) : list Vector3 :=
  for_loop (length vs) (λ pt, 3 * pt <? length vs)
    (λ pt acc, acc ++ [new_Vector3 (vs !! (pt * 3)) (vs !! (pt * 3 + 1)) (vs !! (pt * 3 + 2))])
    0 [].

(** The face loop:
    [for (face = 0; face < geo.vertices.length - 2; face++)
       geo.faces.push(new Face3(0, face + 1, face + 2))].
    The bound may be negative, so the comparison is made in [Z]. *)
Definition generate_faces (nverts : nat) : list Face3 :=
  for_loop nverts (λ face, (Z.of_nat face <? Z.of_nat nverts - 2)%Z)
    (λ face acc, acc ++ [mkFace3 0 (face + 1) (face + 2)])
    0 [].

(** [getRandomPaletteColor] lives in [ARUtils] and picks a palette entry with
    [Math.random]; the colour returned by its [k]-th call is a parameter of
    the development. *)
Class Palette := getRandomPaletteColor : nat → Color.

Section WithPalette.

Context `{Palette}.

Definition drawPaletteColor : JS Color := λ s,
  (getRandomPaletteColor (paletteDraws s),
   mkARPlanes (children s) (planes s) (materialMap s)
              (object3DId s) (materialId s) (S (paletteDraws s))).

(** The material of a plane: the one stored for its id, or a fresh clone
    coloured from the palette and stored. *)
Definition planeMaterial (id : string) : JS RawShaderMaterial :=
  stored ← gets (λ s, materialMap s !! id);
  match stored with
  | Some material => mret material
  | None =>
      color ← drawPaletteColor;
      material ← Material_clone DEFAULT_MATERIAL;
      let material := set_backgroundColor color material in
      modify (set_materialMap (<[id := material]>)) ≫= λ _,
      mret material
  end.

Definition createPlane (plane : Plane) : JS (option Object3D) :=
  if length (vertices plane) =? 0 then mret None
  else
    let id := identifier plane in
    planeObj ← new_Object3D;
    let mm := modelMatrix plane in
    let m := Matrix4_set (matrix planeObj)
      (mm !! 0) (mm !! 4) (mm !! 8) (mm !! 12)
      (mm !! 1) (mm !! 5) (mm !! 9) (mm !! 13)
      (mm !! 2) (mm !! 6) (mm !! 10) (mm !! 14)
      (mm !! 3) (mm !! 7) (mm !! 11) (mm !! 15) in
    let gv := generate_vertices (vertices plane) in
    let geo := mkGeometry gv (generate_faces (length gv)) in
    material ← planeMaterial id;
    planeMesh ← new_Mesh geo material;
    mret (Some (mkObject3D (obj_id planeObj) (position planeObj)
                  (quaternion planeObj) (scale planeObj) m false
                  (obj_children planeObj ++ [planeMesh]))).

(** The closures of the constructor. *)
Definition addPlane (plane : Plane) : JS unit :=
  planeObj ← createPlane plane;
  match planeObj with
  | Some planeObj =>
      Object3D_add planeObj ≫= λ _,
      modify (set_planes (<[identifier plane := planeObj]>))
  | None => mret tt
  end.

Definition removePlane (id : string) : JS unit :=
  existing ← gets (λ s, planes s !! id);
  match existing with
  | Some existing => Object3D_remove existing
  | None => mret tt
  end ≫= λ _,
  modify (set_planes (delete id)).

(** The three listeners registered on [vrDisplay].  The first also logs the
    batch to the console, which leaves the state alone. *)
Definition on_planesadded (event_planes : list Plane) : JS unit :=
  for_of event_planes addPlane.

Definition on_planesupdated (event_planes : list Plane) : JS unit :=
  for_of event_planes (λ plane,
    removePlane (identifier plane) ≫= λ _, addPlane plane).

Definition on_planesremoved (event_planes : list Plane) : JS unit :=
  for_of event_planes (λ plane, removePlane (identifier plane)).

(** [update()] reports [this.planes.size]. *)
Definition update (s : ARPlanes) : nat := size (planes s).

Inductive Event :=
  | planesadded (event_planes : list Plane)
  | planesupdated (event_planes : list Plane)
  | planesremoved (event_planes : list Plane).

Definition dispatch (e : Event) : JS unit :=
  match e with
  | planesadded ps => on_planesadded ps
  | planesupdated ps => on_planesupdated ps
  | planesremoved ps => on_planesremoved ps
  end.

Definition run (es : list Event) (s : ARPlanes) : ARPlanes :=
  exec (for_of es dispatch) s.

End WithPalette.

(** The state right after the constructor: no children, two empty maps.  Id 0
    of either counter is taken already (by the [ARPlanes] node itself and by
    the template material). *)
Definition constructed : ARPlanes := mkARPlanes [] ∅ ∅ 1 1 0.

(** ** Specification-side vocabulary *)

(** Point [pt] of a flat coordinate list, as the [Vector3] constructor stores
    it. *)
Definition vertex_at (vs : list number) (pt : nat) : Vector3 :=
  new_Vector3 (vs !! (pt * 3)) (vs !! (pt * 3 + 1)) (vs !! (pt * 3 + 2)).

(** The triangle fan over [n] points anchored at point 0: the triangles
    [(0, face+1, face+2)] for [face] from 0 to [n-3]. *)
Definition fan_face (face : nat) : Face3 := mkFace3 0 (face + 1) (face + 2).

Definition triangle_fan (n : nat) : list Face3 := fan_face <$> seq 0 (n - 2).

(** The identifiers a batch carries. *)
Definition batch_ids (ps : list Plane) : gset string :=
  list_to_set (identifier <$> ps).

(** "The identifiers that have been added (or re-added after update) and not
    subsequently removed", read off the notifications alone. *)
Definition added_not_removed_step (present : gset string) (e : Event) : gset string :=
  match e with
  | planesadded ps => present ∪ batch_ids ps
  | planesupdated ps => present ∪ batch_ids ps
  | planesremoved ps => present ∖ batch_ids ps
  end.

Definition added_not_removed (es : list Event) : gset string :=
  fold_left added_not_removed_step es ∅.

(** The same bookkeeping when a plane without vertices is not counted as
    added: "added" skips it, "updated" only removes its identifier. *)
Definition has_vertices (p : Plane) : bool := negb (length (vertices p) =? 0).

Definition track_add (present : gset string) (p : Plane) : gset string :=
  if has_vertices p then {[identifier p]} ∪ present else present.

Definition track_remove (present : gset string) (p : Plane) : gset string :=
  present ∖ {[identifier p]}.

Definition track_update (present : gset string) (p : Plane) : gset string :=
  track_add (track_remove present p) p.

Definition tracked_step (present : gset string) (e : Event) : gset string :=
  match e with
  | planesadded ps => fold_left track_add ps present
  | planesupdated ps => fold_left track_update ps present
  | planesremoved ps => fold_left track_remove ps present
  end.

Definition tracked_after (es : list Event) (present : gset string) : gset string :=
  fold_left tracked_step es present.

(** The renderables the entry map holds. *)
Definition renderables (s : ARPlanes) : list Object3D := (map_to_list (planes s)).*2.

(** The scene is in step with the registry: the children are exactly the
    renderables of the entry map, each once. *)
Definition scene_synced (s : ARPlanes) : Prop := children s ≡ₚ renderables s.

(** The children are distinct objects whose ids the counter has handed out. *)
Definition children_allocated (s : ARPlanes) : Prop :=
  NoDup (obj_id <$> children s) ∧ ∀ o, o ∈ children s → obj_id o < object3DId s.

Definition scene_wf (s : ARPlanes) : Prop := scene_synced s ∧ children_allocated s.

(** Every plane of an added or updated batch has vertices. *)
Definition carries_vertices (e : Event) : Prop :=
  match e with
  | planesadded ps | planesupdated ps => ∀ p, p ∈ ps → vertices p ≠ []
  | planesremoved _ => True
  end.

(** ** Invariants of the registry *)

(** Every entry of the map is a child of the node, and the entries of
    distinct identifiers are distinct objects. *)
Definition entries_attached (s : ARPlanes) : Prop :=
  (∀ k o, planes s !! k = Some o → o ∈ children s) ∧
  (∀ k k' o o', planes s !! k = Some o → planes s !! k' = Some o' →
                obj_id o = obj_id o' → k = k').

Definition registry_inv (s : ARPlanes) : Prop :=
  children_allocated s ∧ entries_attached s.

(** The renderable of a tracked identifier has one mesh, and its material is
    the one [materialMap] holds for the identifier. *)
Definition colours_consistent (s : ARPlanes) : Prop :=
  ∀ k o, planes s !! k = Some o →
    ∃ mesh, obj_children o = [mesh] ∧ materialMap s !! k = Some (mesh_material mesh).

(** The material made at palette draw number [n] (counting from 0) when the
    template is the only material made before: clone number [n + 1] of the
    template with the colour of that draw as background. *)
Definition palette_material `{Palette} (n : nat) : RawShaderMaterial :=
  set_backgroundColor (getRandomPaletteColor n)
    (mkMaterial (S n) (side DEFAULT_MATERIAL) (transparent DEFAULT_MATERIAL)
                (uniforms DEFAULT_MATERIAL)).

Definition materials_accounted `{Palette} (s : ARPlanes) : Prop :=
  paletteDraws s = size (materialMap s) ∧
  materialId s = S (size (materialMap s)) ∧
  (∀ k m, materialMap s !! k = Some m →
          ∃ n, n < paletteDraws s ∧ m = palette_material n) ∧
  (∀ k k' m m', materialMap s !! k = Some m → materialMap s !! k' = Some m' →
                material_id m = material_id m' → k = k').

(** The planes a notification carries, and their identifiers. *)
Definition event_batch (e : Event) : list Plane :=
  match e with
  | planesadded ps | planesupdated ps | planesremoved ps => ps
  end.

Definition event_ids (e : Event) : gset string := batch_ids (event_batch e).

(** A device that reports a plane as added only when it is not tracked:
    [present] is the set of tracked identifiers before the batch or the
    sequence. *)
Fixpoint adds_untracked (present : gset string) (ps : list Plane) : Prop :=
  match ps with
  | [] => True
  | p :: rest => (identifier p ∉ present) ∧ adds_untracked (track_add present p) rest
  end.

Fixpoint device_protocol (present : gset string) (es : list Event) : Prop :=
  match es with
  | [] => True
  | e :: rest =>
      match e with
      | planesadded ps => adds_untracked present ps
      | _ => True
      end ∧ device_protocol (tracked_step present e) rest
  end.

(** The coordinates of a point, as they were read. *)
Definition coordinates (v : Vector3) : list value := [vx v; vy v; vz v].

(** ** Sample inputs *)

(** A palette whose [k]-th draw is colour number [k]: two draws never agree. *)
Definition counting_palette : Palette := λ k, mkColor (N.of_nat k).

Definition identity_pose : list number :=
  [1; 0; 0; 0;  0; 1; 0; 0;  0; 0; 1; 0;  0; 0; 0; 1]%float.

(** The unit square of the spec's scenario A. *)
Definition plane_p1 : Plane :=
  mkPlane "p1" [0; 0; 0;  1; 0; 0;  1; 0; 1;  0; 0; 1]%float identity_pose.

(** The same surface, grown to five points. *)
Definition plane_p1_grown : Plane :=
  mkPlane "p1" [0; 0; 0;  2; 0; 0;  2; 0; 2;  1; 0; 3;  0; 0; 2]%float identity_pose.

(** The same surface reported without vertices. *)
Definition plane_p1_empty : Plane := mkPlane "p1" [] identity_pose.

Definition plane_p2 : Plane :=
  mkPlane "p2" [0; 0; 0;  1; 0; 0;  0; 0; 1]%float identity_pose.

(** * Properties *)

(** ** Loops *)

Lemma for_loop_fold {A} (cond : nat → bool) (body : nat → A → A) (n : nat) :
  (∀ j, cond j = true ↔ j < n) →
  ∀ fuel i acc, n ≤ fuel + i →
    for_loop fuel cond body i acc = fold_left (λ a j, body j a) (seq i (n - i)) acc.
Proof.
  intros Hcond. induction fuel as [|fuel IH]; intros i acc Hfuel; simpl.
  - by replace (n - i) with 0 by lia.
  - destruct (cond i) eqn:Hi.
    + apply Hcond in Hi. rewrite IH by lia.
      by replace (n - i) with (S (n - S i)) by lia.
    + assert (¬ i < n) by (rewrite <- Hcond; congruence).
      by replace (n - i) with 0 by lia.
Qed.

Lemma fold_left_push {A B} (f : A → B) (l : list A) (acc : list B) :
  fold_left (λ a j, a ++ [f j]) l acc = acc ++ (f <$> l).
Proof.
  revert acc. induction l as [|x l IH]; intros acc; simpl.
  - by rewrite app_nil_r.
  - by rewrite IH, <- app_assoc.
Qed.

Lemma generate_vertices_points (vs : list number) (n : nat) :
  (∀ pt, 3 * pt < length vs ↔ pt < n) →
  generate_vertices vs = vertex_at vs <$> seq 0 n.
Proof.
  intros Hn. unfold generate_vertices.
  rewrite (for_loop_fold _ _ n).
  - rewrite Nat.sub_0_r. apply (fold_left_push (vertex_at vs)).
  - intros j. rewrite Nat.ltb_lt. apply Hn.
  - destruct n as [|n]; [lia|]. specialize (proj2 (Hn n)). lia.
Qed.

Lemma generate_vertices_triples (vs : list number) (n : nat) :
  length vs = 3 * n → generate_vertices vs = vertex_at vs <$> seq 0 n.
Proof. intros Hlen. apply generate_vertices_points. intros pt. lia. Qed.

Lemma generate_vertices_length (vs : list number) :
  length (generate_vertices vs) = (length vs + 2) / 3.
Proof.
  rewrite (generate_vertices_points vs ((length vs + 2) / 3)).
  - by rewrite length_fmap, length_seq.
  - intros pt.
    pose proof (Nat.div_mod_eq (length vs + 2) 3).
    pose proof (Nat.mod_upper_bound (length vs + 2) 3). lia.
Qed.

Lemma generate_faces_fan (nverts : nat) : generate_faces nverts = triangle_fan nverts.
Proof.
  unfold generate_faces, triangle_fan.
  rewrite (for_loop_fold _ _ (nverts - 2)).
  - rewrite Nat.sub_0_r. apply (fold_left_push fan_face).
  - intros j. rewrite Z.ltb_lt. lia.
  - lia.
Qed.

Lemma triangle_fan_length (n : nat) : length (triangle_fan n) = n - 2.
Proof. unfold triangle_fan. by rewrite length_fmap, length_seq. Qed.

(** ** The state monad *)

Ltac unfold_js :=
  unfold exec, eval, gets, modify, mbind, mret, JS_bind, JS_ret in *.

Lemma exec_bind {A B} (c : JS A) (k : A → JS B) (s : ARPlanes) :
  exec (c ≫= k) s = exec (k (eval c s)) (exec c s).
Proof. unfold_js. by destruct (c s). Qed.

Lemma eval_bind {A B} (c : JS A) (k : A → JS B) (s : ARPlanes) :
  eval (c ≫= k) s = eval (k (eval c s)) (exec c s).
Proof. unfold_js. by destruct (c s). Qed.

Lemma for_of_nil {A} (body : A → JS unit) (s : ARPlanes) :
  exec (for_of [] body) s = s.
Proof. done. Qed.

Lemma for_of_cons {A} (x : A) (xs : list A) (body : A → JS unit) (s : ARPlanes) :
  exec (for_of (x :: xs) body) s = exec (for_of xs body) (exec (body x) s).
Proof. simpl. by rewrite exec_bind. Qed.

Lemma for_of_app {A} (xs ys : list A) (body : A → JS unit) (s : ARPlanes) :
  exec (for_of (xs ++ ys) body) s = exec (for_of ys body) (exec (for_of xs body) s).
Proof.
  revert s. induction xs as [|x xs IH]; intros s; [done|].
  rewrite <- app_comm_cons, !for_of_cons. apply IH.
Qed.

Lemma for_of_fold {A} (xs : list A) (body : A → JS unit) (s : ARPlanes) :
  exec (for_of xs body) s = fold_left (λ st x, exec (body x) st) xs s.
Proof.
  revert s. induction xs as [|x xs IH]; intros s; [done|].
  rewrite for_of_cons. apply IH.
Qed.

(** ** Detaching a child *)

Lemma splice_first_perm (o : Object3D) (l : list Object3D) :
  NoDup (obj_id <$> l) → o ∈ l → l ≡ₚ o :: splice_first o l.
Proof.
  induction l as [|o' l IH]; intros Hnd Hin.
  - by apply elem_of_nil in Hin.
  - rewrite fmap_cons in Hnd. apply NoDup_cons in Hnd as [Hfresh Hnd].
    cbn [splice_first]. unfold same_object.
    destruct (obj_id o' =? obj_id o) eqn:Hid.
    + apply Nat.eqb_eq in Hid.
      apply elem_of_cons in Hin as [->|Hin]; [done|].
      exfalso. apply Hfresh. rewrite Hid. by apply list_elem_of_fmap_2.
    + apply Nat.eqb_neq in Hid.
      apply elem_of_cons in Hin as [->|Hin]; [done|].
      rewrite (IH Hnd Hin) at 1. apply Permutation_swap.
Qed.


Lemma renderables_lookup (s : ARPlanes) (id : string) (o : Object3D) :
  planes s !! id = Some o → o ∈ renderables s.
Proof.
  intros Ho. unfold renderables.
  apply list_elem_of_fmap. exists (id, o). split; [done|].
  by apply elem_of_map_to_list.
Qed.

(** ** Bookkeeping of identifiers *)

Lemma nonempty_length (p : Plane) :
  vertices p ≠ [] → (length (vertices p) =? 0) = false.
Proof. intros Hv. apply Nat.eqb_neq. by destruct (vertices p). Qed.

Lemma track_add_vertices (ps : list Plane) (present : gset string) :
  (∀ p, p ∈ ps → vertices p ≠ []) →
  fold_left track_add ps present = present ∪ batch_ids ps.
Proof.
  revert present. induction ps as [|p ps IH]; intros present Hps.
  - unfold batch_ids. cbn. set_solver.
  - cbn [fold_left]. rewrite IH by (intros q Hq; apply Hps; by right).
    unfold track_add, has_vertices.
    rewrite nonempty_length by (apply Hps; left).
    unfold batch_ids. cbn. set_solver.
Qed.

Lemma track_update_vertices (ps : list Plane) (present : gset string) :
  (∀ p, p ∈ ps → vertices p ≠ []) →
  fold_left track_update ps present = present ∪ batch_ids ps.
Proof.
  revert present. induction ps as [|p ps IH]; intros present Hps.
  - unfold batch_ids. cbn. set_solver.
  - cbn [fold_left]. rewrite IH by (intros q Hq; apply Hps; by right).
    unfold track_update, track_add, track_remove, has_vertices.
    rewrite nonempty_length by (apply Hps; left).
    unfold batch_ids. cbn [negb fmap list_fmap list_to_set].
    apply set_eq. intros k.
    destruct (decide (k = identifier p)); set_solver.
Qed.

Lemma track_remove_batch (ps : list Plane) (present : gset string) :
  fold_left track_remove ps present = present ∖ batch_ids ps.
Proof.
  revert present. induction ps as [|p ps IH]; intros present.
  - unfold batch_ids. cbn. set_solver.
  - cbn [fold_left]. rewrite IH. unfold track_remove, batch_ids. cbn. set_solver.
Qed.

Lemma tracked_step_vertices (e : Event) (present : gset string) :
  carries_vertices e → tracked_step present e = added_not_removed_step present e.
Proof.
  destruct e as [ps|ps|ps]; cbn [carries_vertices tracked_step added_not_removed_step].
  - apply track_add_vertices.
  - apply track_update_vertices.
  - intros _. apply track_remove_batch.
Qed.

Lemma tracked_after_vertices (es : list Event) (present : gset string) :
  Forall carries_vertices es →
  tracked_after es present = fold_left added_not_removed_step es present.
Proof.
  unfold tracked_after. intros Hes. revert present.
  induction Hes as [|e es He Hes IH]; intros present; [done|].
  cbn [fold_left]. by rewrite tracked_step_vertices, IH.
Qed.

Section Properties.

Context `{Palette}.

(** ** [createPlane] in closed form *)

(** The material a plane gets when none is stored for its id. *)
Definition fresh_material (s : ARPlanes) : RawShaderMaterial :=
  set_backgroundColor (getRandomPaletteColor (paletteDraws s))
    (mkMaterial (materialId s) DoubleSide true (uniforms DEFAULT_MATERIAL)).

(** The material [createPlane] puts on the mesh of a plane with identifier
    [id]. *)
Definition material_for (id : string) (s : ARPlanes) : RawShaderMaterial :=
  default (fresh_material s) (materialMap s !! id).

Lemma planeMaterial_stored (id : string) (s : ARPlanes) (m : RawShaderMaterial) :
  materialMap s !! id = Some m → planeMaterial id s = (m, s).
Proof. intros Hm. unfold planeMaterial. unfold_js. by rewrite Hm. Qed.

Lemma planeMaterial_fresh (id : string) (s : ARPlanes) :
  materialMap s !! id = None →
  planeMaterial id s =
    (fresh_material s,
     mkARPlanes (children s) (planes s) (<[id := fresh_material s]> (materialMap s))
                (object3DId s) (S (materialId s)) (S (paletteDraws s))).
Proof. intros Hm. unfold planeMaterial. unfold_js. by rewrite Hm. Qed.

Lemma planeMaterial_eval (id : string) (s : ARPlanes) :
  eval (planeMaterial id) s = material_for id s.
Proof.
  unfold material_for. destruct (materialMap s !! id) as [m|] eqn:Hm.
  - unfold eval. by rewrite (planeMaterial_stored _ _ m).
  - unfold eval. by rewrite planeMaterial_fresh.
Qed.

Lemma createPlane_empty (p : Plane) (s : ARPlanes) :
  vertices p = [] → createPlane p s = (None, s).
Proof. intros Hv. unfold createPlane. by rewrite Hv. Qed.

(** With vertices, [createPlane] returns a node: its id is the next object id,
    its only child the mesh (next id but one) carrying [material_for]. *)
Lemma createPlane_node (p : Plane) (s : ARPlanes) :
  vertices p ≠ [] →
  ∃ o mesh,
    eval (createPlane p) s = Some o ∧
    obj_id o = object3DId s ∧
    obj_children o = [mesh] ∧
    mesh_id mesh = S (object3DId s) ∧
    mesh_material mesh = material_for (identifier p) s ∧
    mesh_geometry mesh =
      mkGeometry (generate_vertices (vertices p))
                 (generate_faces (length (generate_vertices (vertices p)))).
Proof.
  intros Hv. unfold createPlane. rewrite (nonempty_length p Hv).
  unfold planeMaterial, material_for, fresh_material, new_Object3D, new_Mesh,
    Material_clone.
  unfold_js. cbn [materialMap].
  destruct (materialMap s !! identifier p) as [m|]; cbn;
    eexists _, _; repeat split; reflexivity.
Qed.

(** What [createPlane] does to the state: the two maps' owner fields are
    untouched except that a missing material is stored; two object ids are
    consumed. *)
Lemma createPlane_exec (p : Plane) (s : ARPlanes) :
  vertices p ≠ [] →
  exec (createPlane p) s =
    match materialMap s !! identifier p with
    | Some _ =>
        mkARPlanes (children s) (planes s) (materialMap s)
                   (S (S (object3DId s))) (materialId s) (paletteDraws s)
    | None =>
        mkARPlanes (children s) (planes s)
                   (<[identifier p := fresh_material s]> (materialMap s))
                   (S (S (object3DId s))) (S (materialId s)) (S (paletteDraws s))
    end.
Proof.
  intros Hv. unfold createPlane. rewrite (nonempty_length p Hv).
  unfold planeMaterial, fresh_material, new_Object3D, new_Mesh, Material_clone.
  unfold_js. cbn [materialMap].
  by destruct (materialMap s !! identifier p) as [m|].
Qed.

(** ** [addPlane] and [removePlane] in closed form *)

Lemma addPlane_exec (p : Plane) (s : ARPlanes) :
  exec (addPlane p) s =
    match eval (createPlane p) s with
    | Some o =>
        set_planes (<[identifier p := o]>)
          (set_children (λ l, l ++ [o]) (exec (createPlane p) s))
    | None => exec (createPlane p) s
    end.
Proof.
  unfold addPlane. rewrite exec_bind.
  by destruct (eval (createPlane p) s).
Qed.

Lemma addPlane_empty (p : Plane) (s : ARPlanes) :
  vertices p = [] → addPlane p s = (tt, s).
Proof.
  intros Hv. unfold addPlane. unfold_js. by rewrite createPlane_empty.
Qed.

Lemma removePlane_exec (id : string) (s : ARPlanes) :
  exec (removePlane id) s =
    mkARPlanes
      (match planes s !! id with
       | Some existing => splice_first existing (children s)
       | None => children s
       end)
      (delete id (planes s)) (materialMap s)
      (object3DId s) (materialId s) (paletteDraws s).
Proof.
  unfold removePlane, Object3D_remove. unfold_js.
  by destruct (planes s !! id).
Qed.

Lemma removePlane_lookup (id k : string) (s : ARPlanes) :
  planes (exec (removePlane id) s) !! k =
    if decide (id = k) then None else planes s !! k.
Proof. rewrite removePlane_exec. cbn [planes]. apply lookup_delete. Qed.

Lemma removePlane_materialMap (id : string) (s : ARPlanes) :
  materialMap (exec (removePlane id) s) = materialMap s.
Proof. by rewrite removePlane_exec. Qed.

Lemma removePlane_paletteDraws (id : string) (s : ARPlanes) :
  paletteDraws (exec (removePlane id) s) = paletteDraws s.
Proof. by rewrite removePlane_exec. Qed.

Lemma createPlane_planes (p : Plane) (s : ARPlanes) :
  planes (exec (createPlane p) s) = planes s.
Proof.
  destruct (decide (vertices p = [])) as [Hv|Hv].
  - unfold exec. by rewrite createPlane_empty.
  - rewrite createPlane_exec by done. by destruct (materialMap s !! identifier p).
Qed.

Lemma createPlane_children (p : Plane) (s : ARPlanes) :
  children (exec (createPlane p) s) = children s.
Proof.
  destruct (decide (vertices p = [])) as [Hv|Hv].
  - unfold exec. by rewrite createPlane_empty.
  - rewrite createPlane_exec by done. by destruct (materialMap s !! identifier p).
Qed.

Lemma addPlane_lookup_ne (p : Plane) (k : string) (s : ARPlanes) :
  identifier p ≠ k → planes (exec (addPlane p) s) !! k = planes s !! k.
Proof.
  intros Hk. rewrite addPlane_exec.
  destruct (eval (createPlane p) s) as [o|]; cbn [set_planes set_children planes].
  - by rewrite lookup_insert_ne, createPlane_planes.
  - by rewrite createPlane_planes.
Qed.

Lemma addPlane_planes (p : Plane) (s : ARPlanes) :
  vertices p ≠ [] →
  ∃ o, eval (createPlane p) s = Some o ∧
       planes (exec (addPlane p) s) = <[identifier p := o]> (planes s) ∧
       children (exec (addPlane p) s) = children s ++ [o].
Proof.
  intros Hv. destruct (createPlane_node p s Hv) as (o & mesh & Ho & _).
  exists o. split; [done|]. rewrite addPlane_exec, Ho.
  cbn [set_planes set_children planes children].
  by rewrite createPlane_planes, createPlane_children.
Qed.

(** One step of the update listener leaves the entries of other identifiers
    alone. *)
Lemma update_step_lookup_ne (q : Plane) (k : string) (s : ARPlanes) :
  identifier q ≠ k →
  planes (exec (removePlane (identifier q) ≫= λ _, addPlane q) s) !! k = planes s !! k.
Proof.
  intros Hk. rewrite exec_bind, addPlane_lookup_ne, removePlane_lookup by done.
  by rewrite decide_False.
Qed.

Lemma on_planesupdated_lookup_ne (ps : list Plane) (k : string) (s : ARPlanes) :
  (∀ q, q ∈ ps → identifier q ≠ k) →
  planes (exec (on_planesupdated ps) s) !! k = planes s !! k.
Proof.
  unfold on_planesupdated. revert s.
  induction ps as [|q ps IH]; intros s Hps; [done|].
  rewrite for_of_cons, IH.
  - apply update_step_lookup_ne, Hps. left.
  - intros q' Hq'. apply Hps. by right.
Qed.

(** The transform part of the node: the matrix holds the device's array
    element by element, and is the node's fixed local transform. *)
Lemma createPlane_transform (p : Plane) (s : ARPlanes) :
  vertices p ≠ [] →
  ∃ o, eval (createPlane p) s = Some o ∧
       matrixAutoUpdate o = false ∧
       matrix o = mkMatrix4 ((λ i, modelMatrix p !! i) <$> seq 0 16) ∧
       position o = mkVector3 (Some 0%float) (Some 0%float) (Some 0%float) ∧
       quaternion o =
         mkQuaternion (Some 0%float) (Some 0%float) (Some 0%float) (Some 1%float) ∧
       scale o = mkVector3 (Some 1%float) (Some 1%float) (Some 1%float).
Proof.
  intros Hv. unfold createPlane. rewrite (nonempty_length p Hv).
  unfold planeMaterial, new_Object3D, new_Mesh, Material_clone.
  unfold_js. cbn [materialMap].
  destruct (materialMap s !! identifier p) as [m|]; cbn;
    eexists; repeat split; reflexivity.
Qed.

(** ** The geometry builder *)

(** C4: for a plane whose flat vertex list encodes [n] points, [createPlane]
    signals no geometry ([null]) when [n = 0]; otherwise the mesh has [n]
    points and exactly the triangle fan [(0, face+1, face+2)],
    [face = 0 .. n-3]: [n - 2] triangles when [n >= 3], none when [n < 3],
    and [(0,1,2)], [(0,2,3)] for four points. *)
Theorem createPlane_triangle_fan (p : Plane) (s : ARPlanes) (n : nat) :
  length (vertices p) = 3 * n →
  (n = 0 → eval (createPlane p) s = None) ∧
  (0 < n → ∃ o mesh,
     eval (createPlane p) s = Some o ∧
     obj_children o = [mesh] ∧
     length (geo_vertices (mesh_geometry mesh)) = n ∧
     geo_faces (mesh_geometry mesh) = triangle_fan n ∧
     (3 ≤ n → length (geo_faces (mesh_geometry mesh)) = n - 2) ∧
     (n < 3 → geo_faces (mesh_geometry mesh) = []) ∧
     (n = 4 → geo_faces (mesh_geometry mesh) = [mkFace3 0 1 2; mkFace3 0 2 3])).
Proof.
  intros Hlen. split.
  - intros ->. unfold eval. rewrite createPlane_empty; [done|].
    by apply nil_length_inv.
  - intros Hn.
    assert (vertices p ≠ []) as Hv by (intros Hnil; rewrite Hnil in Hlen; simpl in Hlen; lia).
    destruct (createPlane_node p s Hv) as (o & mesh & Ho & _ & Hch & _ & _ & Hgeo).
    exists o, mesh. rewrite Hgeo. cbn [geo_vertices geo_faces].
    rewrite generate_faces_fan, (generate_vertices_triples _ n Hlen).
    rewrite length_fmap, length_seq.
    repeat split; try done.
    + intros _. apply triangle_fan_length.
    + intros Hsmall. unfold triangle_fan. by replace (n - 2) with 0 by lia.
    + by intros ->.
Qed.

(** C9: for a plane with vertices, the node's matrix is set from the 16
    entries of [modelMatrix], entry [i] of the device array landing in entry
    [i] of the matrix' [elements]; [matrixAutoUpdate] is off and position,
    rotation and scale keep the constructor's values. *)
Theorem createPlane_fixed_matrix (p : Plane) (s : ARPlanes) :
  vertices p ≠ [] →
  ∃ o, eval (createPlane p) s = Some o ∧
       matrixAutoUpdate o = false ∧
       length (elements (matrix o)) = 16 ∧
       (∀ i, i < 16 → elements (matrix o) !! i = Some (modelMatrix p !! i)) ∧
       (length (modelMatrix p) = 16 → elements (matrix o) = Some <$> modelMatrix p) ∧
       position o = mkVector3 (Some 0%float) (Some 0%float) (Some 0%float) ∧
       quaternion o =
         mkQuaternion (Some 0%float) (Some 0%float) (Some 0%float) (Some 1%float) ∧
       scale o = mkVector3 (Some 1%float) (Some 1%float) (Some 1%float).
Proof.
  intros Hv.
  destruct (createPlane_transform p s Hv) as (o & Ho & Hauto & Hm & Hpos & Hrot & Hsc).
  exists o. rewrite Hm. cbn [elements].
  repeat split; try done.
  - intros i Hi. rewrite list_lookup_fmap, lookup_seq_lt by done. done.
  - intros Hlen. apply list_eq. intros i.
    rewrite !list_lookup_fmap.
    destruct (decide (i < 16)) as [Hi|Hi].
    + rewrite lookup_seq_lt by done. cbn.
      destruct (lookup_lt_is_Some_2 (modelMatrix p) i) as [x Hx]; [lia|].
      by rewrite Hx.
    + rewrite lookup_seq_ge by lia. cbn.
      by rewrite (lookup_ge_None_2 (modelMatrix p) i) by lia.
Qed.

(** ** The registry operations *)

(** C7: upserting a plane whose vertex list is empty changes nothing: the
    builder returns [null], [addPlane] returns normally with the state as it
    was, so an existing entry for the identifier stays and the count is the
    same. *)
Theorem addPlane_empty_vertices_noop (p : Plane) (s : ARPlanes) :
  vertices p = [] →
  createPlane p s = (None, s) ∧
  addPlane p s = (tt, s) ∧
  planes (exec (addPlane p) s) !! identifier p = planes s !! identifier p ∧
  update (exec (addPlane p) s) = update s.
Proof.
  intros Hv. split; [by apply createPlane_empty|].
  unfold exec. by rewrite (addPlane_empty p s Hv).
Qed.

(** C8: [removePlane] is idempotent, and on an identifier without entry it
    returns normally and leaves the state as it was. *)
Theorem removePlane_idempotent (id : string) (s : ARPlanes) :
  exec (removePlane id) (exec (removePlane id) s) = exec (removePlane id) s ∧
  (planes s !! id = None → removePlane id s = (tt, s)).
Proof.
  split.
  - rewrite (removePlane_exec id (exec (removePlane id) s)).
    rewrite removePlane_lookup, decide_True by done.
    rewrite removePlane_exec. cbn [children planes materialMap object3DId materialId paletteDraws].
    by rewrite delete_delete_eq.
  - intros Hnone. unfold removePlane. unfold_js. rewrite Hnone.
    unfold set_planes. rewrite delete_id by done. by destruct s.
Qed.

(** ** The event adapter *)

(** C6: the update listener handles the planes of a batch in the order given,
    each by [removePlane] of its identifier followed by [addPlane]: its effect
    is the left-to-right fold of that composition, and a batch split in two is
    handled as the first part followed by the second. *)
Theorem on_planesupdated_remove_then_add (ps : list Plane) (s : ARPlanes) :
  exec (dispatch (planesupdated ps)) s =
    fold_left (λ st p, exec (addPlane p) (exec (removePlane (identifier p)) st)) ps s ∧
  (∀ p rest, exec (on_planesupdated (p :: rest)) s =
     exec (on_planesupdated rest) (exec (addPlane p) (exec (removePlane (identifier p)) s))) ∧
  (∀ ps1 ps2, ps = ps1 ++ ps2 →
     exec (on_planesupdated ps) s = exec (on_planesupdated ps2) (exec (on_planesupdated ps1) s)).
Proof.
  cbn [dispatch]. unfold on_planesupdated. repeat split.
  - rewrite for_of_fold. revert s.
    induction ps as [|p ps IH]; intros s; [done|].
    cbn [fold_left]. by rewrite exec_bind, IH.
  - intros p rest. by rewrite for_of_cons, exec_bind.
  - intros ps1 ps2 ->. apply for_of_app.
Qed.

(** C10 (as the code has it): an update notification whose last plane for [X]
    has an empty vertex list (whatever comes before it in the batch, no plane
    for [X] after it) leaves [X] without entry, whereas a bare [addPlane] of
    that plane leaves the state, and so an existing entry of [X], as it was. *)
Theorem planesupdated_empty_vertices_untracks
    (pre post : list Plane) (p : Plane) (s : ARPlanes) :
  vertices p = [] →
  (∀ q, q ∈ post → identifier q ≠ identifier p) →
  planes (exec (dispatch (planesupdated (pre ++ p :: post))) s) !! identifier p = None ∧
  (identifier p ∉ dom (planes (exec (dispatch (planesupdated (pre ++ p :: post))) s))) ∧
  planes (exec (addPlane p) s) !! identifier p = planes s !! identifier p.
Proof.
  intros Hv Hpost.
  assert (planes (exec (dispatch (planesupdated (pre ++ p :: post))) s) !! identifier p = None)
    as Hgone.
  { cbn [dispatch]. unfold on_planesupdated.
    rewrite for_of_app, for_of_cons.
    rewrite (on_planesupdated_lookup_ne post) by done.
    rewrite exec_bind. unfold exec at 1. rewrite addPlane_empty by done.
    cbn [snd]. rewrite removePlane_lookup. by rewrite decide_True. }
  split; [done|]. split.
  - by apply not_elem_of_dom.
  - unfold exec. by rewrite addPlane_empty.
Qed.

(** ** Colour assignment *)

Lemma material_for_stored (id : string) (s : ARPlanes) (m : RawShaderMaterial) :
  materialMap s !! id = Some m → material_for id s = m.
Proof. intros Hm. unfold material_for. by rewrite Hm. Qed.

(** After [createPlane] the material it used is the one stored for the id. *)
Lemma createPlane_stores (p : Plane) (s : ARPlanes) :
  vertices p ≠ [] →
  materialMap (exec (createPlane p) s) !! identifier p =
    Some (material_for (identifier p) s).
Proof.
  intros Hv. rewrite createPlane_exec by done. unfold material_for.
  destruct (materialMap s !! identifier p) as [m|] eqn:Hm; cbn [materialMap default].
  - done.
  - apply lookup_insert_eq.
Qed.

(** Nothing ever leaves [materialMap]: a stored material stays stored. *)
Lemma createPlane_keeps_material (p : Plane) (k : string) (m : RawShaderMaterial)
    (s : ARPlanes) :
  materialMap s !! k = Some m → materialMap (exec (createPlane p) s) !! k = Some m.
Proof.
  intros Hm. destruct (decide (vertices p = [])) as [Hv|Hv].
  - unfold exec. by rewrite createPlane_empty.
  - rewrite createPlane_exec by done.
    destruct (materialMap s !! identifier p) as [m'|] eqn:Hp; cbn [materialMap]; [done|].
    rewrite lookup_insert_ne; [done|]. intros <-. congruence.
Qed.

Lemma addPlane_materialMap (p : Plane) (s : ARPlanes) :
  materialMap (exec (addPlane p) s) = materialMap (exec (createPlane p) s).
Proof. rewrite addPlane_exec. by destruct (eval (createPlane p) s). Qed.

Lemma addPlane_paletteDraws (p : Plane) (s : ARPlanes) :
  paletteDraws (exec (addPlane p) s) = paletteDraws (exec (createPlane p) s).
Proof. rewrite addPlane_exec. by destruct (eval (createPlane p) s). Qed.

Lemma dispatch_keeps_material (e : Event) (k : string) (m : RawShaderMaterial)
    (s : ARPlanes) :
  materialMap s !! k = Some m → materialMap (exec (dispatch e) s) !! k = Some m.
Proof.
  destruct e as [ps|ps|ps]; cbn [dispatch];
    unfold on_planesadded, on_planesupdated, on_planesremoved;
    revert s; induction ps as [|p ps IH]; intros s Hm; try done;
    rewrite for_of_cons; apply IH.
  - rewrite addPlane_materialMap. by apply createPlane_keeps_material.
  - rewrite exec_bind, addPlane_materialMap. apply createPlane_keeps_material.
    by rewrite removePlane_materialMap.
  - by rewrite removePlane_materialMap.
Qed.

Lemma run_keeps_material (es : list Event) (k : string) (m : RawShaderMaterial)
    (s : ARPlanes) :
  materialMap s !! k = Some m → materialMap (run es s) !! k = Some m.
Proof.
  unfold run. revert s. induction es as [|e es IH]; intros s Hm; [done|].
  rewrite for_of_cons. by apply IH, dispatch_keeps_material.
Qed.

(** C5: two upserts for the same identifier, the colour assignment of the
    identifier not touched in between, put the same material on both
    renderables: the second looks the stored one up, draws no palette colour
    and leaves [materialMap] as it is. *)
Theorem addPlane_reuses_material (p p' : Plane) (s s' : ARPlanes) :
  identifier p' = identifier p →
  vertices p ≠ [] →
  vertices p' ≠ [] →
  materialMap s' !! identifier p = materialMap (exec (addPlane p) s) !! identifier p →
  ∃ o o' mesh mesh',
    planes (exec (addPlane p) s) !! identifier p = Some o ∧
    obj_children o = [mesh] ∧
    planes (exec (addPlane p') s') !! identifier p = Some o' ∧
    obj_children o' = [mesh'] ∧
    mesh_material mesh' = mesh_material mesh ∧
    materialMap s' !! identifier p = Some (mesh_material mesh) ∧
    paletteDraws (exec (addPlane p') s') = paletteDraws s' ∧
    materialMap (exec (addPlane p') s') = materialMap s'.
Proof.
  intros Hid Hv Hv' Hsame.
  rewrite addPlane_materialMap, createPlane_stores in Hsame by done.
  destruct (createPlane_node p s Hv) as (o & mesh & Ho & _ & Hch & _ & Hmat & _).
  destruct (createPlane_node p' s' Hv') as (o' & mesh' & Ho' & _ & Hch' & _ & Hmat' & _).
  destruct (addPlane_planes p s Hv) as (o1 & Ho1 & Hpl & _).
  destruct (addPlane_planes p' s' Hv') as (o1' & Ho1' & Hpl' & _).
  rewrite Ho in Ho1. rewrite Ho' in Ho1'. simplify_eq.
  exists o1, o1', mesh, mesh'.
  rewrite Hpl, Hpl', Hid, !lookup_insert_eq.
  rewrite Hid, (material_for_stored _ _ _ Hsame) in Hmat'.
  rewrite addPlane_paletteDraws, addPlane_materialMap, createPlane_exec by done.
  rewrite Hid, Hsame, Hmat, Hmat'. by repeat split.
Qed.

(** C1 (as the code has it): the [removePlane] that the update listener
    performs before its [addPlane] deletes the entry of the identifier (and
    no other) but leaves its colour assignment in [materialMap]; the
    [addPlane] that follows puts the stored material on the new renderable
    and draws nothing from the palette. *)
Theorem update_step_reuses_color (p : Plane) (m : RawShaderMaterial) (s : ARPlanes) :
  vertices p ≠ [] →
  materialMap s !! identifier p = Some m →
  planes (exec (removePlane (identifier p)) s) = delete (identifier p) (planes s) ∧
  planes (exec (removePlane (identifier p)) s) !! identifier p = None ∧
  materialMap (exec (removePlane (identifier p)) s) = materialMap s ∧
  materialMap (exec (removePlane (identifier p)) s) !! identifier p = Some m ∧
  ∃ o mesh,
    planes (exec (removePlane (identifier p) ≫= λ _, addPlane p) s) !! identifier p
      = Some o ∧
    obj_children o = [mesh] ∧
    mesh_material mesh = m ∧
    paletteDraws (exec (removePlane (identifier p) ≫= λ _, addPlane p) s)
      = paletteDraws s ∧
    materialMap (exec (removePlane (identifier p) ≫= λ _, addPlane p) s)
      = materialMap s.
Proof.
  intros Hv Hm.
  assert (materialMap (exec (removePlane (identifier p)) s) !! identifier p = Some m)
    as Hkept by (by rewrite removePlane_materialMap).
  split; [by rewrite removePlane_exec|].
  split; [by rewrite removePlane_lookup, decide_True|].
  split; [apply removePlane_materialMap|].
  split; [done|]. rewrite exec_bind.
  set (s1 := exec (removePlane (identifier p)) s) in *.
  destruct (createPlane_node p s1 Hv) as (o & mesh & Ho & _ & Hch & _ & Hmat & _).
  destruct (addPlane_planes p s1 Hv) as (o' & Ho' & Hpl & _).
  rewrite Ho in Ho'. simplify_eq. exists o', mesh.
  rewrite Hpl, lookup_insert_eq, Hmat, (material_for_stored _ _ _ Hkept).
  rewrite addPlane_paletteDraws, addPlane_materialMap, createPlane_exec, Hkept by done.
  cbn [paletteDraws materialMap]. subst s1.
  by rewrite removePlane_paletteDraws, removePlane_materialMap.
Qed.

(** ** Tracked identifiers *)

Lemma addPlane_dom (p : Plane) (s : ARPlanes) :
  dom (planes (exec (addPlane p) s)) = track_add (dom (planes s)) p.
Proof.
  unfold track_add, has_vertices.
  destruct (decide (vertices p = [])) as [Hv|Hv].
  - unfold exec. rewrite addPlane_empty by done. by rewrite Hv.
  - rewrite nonempty_length by done. cbn [negb].
    destruct (addPlane_planes p s Hv) as (o & _ & -> & _).
    apply dom_insert_L.
Qed.

Lemma removePlane_dom (p : Plane) (s : ARPlanes) :
  dom (planes (exec (removePlane (identifier p)) s)) = track_remove (dom (planes s)) p.
Proof. rewrite removePlane_exec. cbn [planes]. apply dom_delete_L. Qed.

Lemma dispatch_dom (e : Event) (s : ARPlanes) :
  dom (planes (exec (dispatch e) s)) = tracked_step (dom (planes s)) e.
Proof.
  destruct e as [ps|ps|ps]; cbn [dispatch tracked_step];
    unfold on_planesadded, on_planesupdated, on_planesremoved;
    revert s; induction ps as [|p ps IH]; intros s; try done;
    rewrite for_of_cons, IH; cbn [fold_left]; f_equal.
  - apply addPlane_dom.
  - rewrite exec_bind, addPlane_dom, removePlane_dom. done.
  - apply removePlane_dom.
Qed.

Lemma run_dom (es : list Event) (s : ARPlanes) :
  dom (planes (run es s)) = tracked_after es (dom (planes s)).
Proof.
  unfold run, tracked_after. revert s.
  induction es as [|e es IH]; intros s; [done|].
  by rewrite for_of_cons, IH, dispatch_dom.
Qed.

(** C3 (as the code has it): after any sequence of notifications the
    identifiers of the entry map are those added, or re-added by an update,
    with a non-empty vertex list and not removed since, where a plane without
    vertices is skipped by "added" and only removed by "updated"; when every
    added or updated plane has vertices these are the identifiers added or
    re-added and not subsequently removed. *)
Theorem run_tracked_identifiers (es : list Event) :
  dom (planes (run es constructed)) = tracked_after es ∅ ∧
  (Forall carries_vertices es →
   dom (planes (run es constructed)) = added_not_removed es).
Proof.
  assert (dom (planes (run es constructed)) = tracked_after es ∅) as Hdom.
  { rewrite run_dom. cbn [constructed planes]. by rewrite dom_empty_L. }
  split; [done|].
  intros Hes. rewrite Hdom. by apply tracked_after_vertices.
Qed.

(** ** The scene and the registry *)

Lemma removePlane_wf (id : string) (s : ARPlanes) :
  scene_wf s → scene_wf (exec (removePlane id) s).
Proof.
  intros (Hsync & Hnd & Hlt). rewrite removePlane_exec.
  unfold scene_wf, scene_synced, children_allocated, renderables in *.
  cbn [children planes object3DId].
  destruct (planes s !! id) as [o|] eqn:Ho.
  - assert (o ∈ children s) as Hin.
    { rewrite Hsync. by eapply renderables_lookup. }
    pose proof (splice_first_perm o _ Hnd Hin) as Hperm.
    split; [|split].
    + apply (Permutation_cons_inv (a := o)).
      rewrite <- Hperm, Hsync, <- (map_to_list_delete _ _ _ Ho). done.
    + rewrite Hperm, fmap_cons in Hnd. by apply NoDup_cons in Hnd as [_ ?].
    + intros o' Ho'. apply Hlt. rewrite Hperm. by right.
  - by rewrite delete_id.
Qed.


Lemma addPlane_scene (p : Plane) (s : ARPlanes) :
  vertices p ≠ [] →
  ∃ o, obj_id o = object3DId s ∧
       planes (exec (addPlane p) s) = <[identifier p := o]> (planes s) ∧
       children (exec (addPlane p) s) = children s ++ [o] ∧
       object3DId (exec (addPlane p) s) = S (S (object3DId s)).
Proof.
  intros Hv. destruct (createPlane_node p s Hv) as (o & mesh & Ho & Hid & _).
  destruct (addPlane_planes p s Hv) as (o' & Ho' & Hpl & Hch).
  rewrite Ho in Ho'. simplify_eq. exists o'. repeat split; try done.
  rewrite addPlane_exec, Ho. cbn [set_planes set_children object3DId].
  rewrite createPlane_exec by done.
  by destruct (materialMap s !! identifier p).
Qed.

Lemma addPlane_wf_untracked (p : Plane) (s : ARPlanes) :
  scene_wf s → planes s !! identifier p = None → scene_wf (exec (addPlane p) s).
Proof.
  intros (Hsync & Hnd & Hlt) Hnone.
  destruct (decide (vertices p = [])) as [Hv|Hv].
  { unfold exec. by rewrite addPlane_empty. }
  destruct (addPlane_scene p s Hv) as (o & Hid & Hpl & Hch & Hnext).
  unfold scene_wf, scene_synced, children_allocated, renderables in *.
  rewrite Hpl, Hch, Hnext. split; [|split].
  - rewrite map_to_list_insert by done. rewrite fmap_cons. cbn [snd].
    by rewrite <- Hsync, Permutation_app_comm.
  - rewrite fmap_app. apply NoDup_app. split; [done|]. split.
    + intros i Hi Hi'. apply list_elem_of_fmap in Hi as (o' & -> & Ho').
      apply list_elem_of_singleton in Hi'. specialize (Hlt o' Ho'). lia.
    + apply NoDup_singleton.
  - intros o' Ho'. apply elem_of_app in Ho' as [Ho'|Ho'].
    + specialize (Hlt o' Ho'). lia.
    + apply list_elem_of_singleton in Ho'. subst o'. lia.
Qed.

Lemma update_step_wf (p : Plane) (s : ARPlanes) :
  scene_wf s → scene_wf (exec (removePlane (identifier p) ≫= λ _, addPlane p) s).
Proof.
  intros Hwf. rewrite exec_bind. apply addPlane_wf_untracked.
  - by apply removePlane_wf.
  - rewrite removePlane_lookup. by rewrite decide_True.
Qed.

Lemma on_planesupdated_wf (ps : list Plane) (s : ARPlanes) :
  scene_wf s → scene_wf (exec (on_planesupdated ps) s).
Proof.
  unfold on_planesupdated. revert s.
  induction ps as [|p ps IH]; intros s Hwf; [done|].
  rewrite for_of_cons. by apply IH, update_step_wf.
Qed.

Lemma on_planesremoved_wf (ps : list Plane) (s : ARPlanes) :
  scene_wf s → scene_wf (exec (on_planesremoved ps) s).
Proof.
  unfold on_planesremoved. revert s.
  induction ps as [|p ps IH]; intros s Hwf; [done|].
  rewrite for_of_cons. by apply IH, removePlane_wf.
Qed.


End Properties.

(** * Further properties of the registry *)

(** ** Detaching, continued *)

Lemma splice_first_same_id (o o' : Object3D) (l : list Object3D) :
  obj_id o = obj_id o' → splice_first o l = splice_first o' l.
Proof.
  intros Hid. induction l as [|x l IH]; [done|].
  cbn [splice_first]. unfold same_object. by rewrite Hid, IH.
Qed.

Lemma splice_first_comm (o1 o2 : Object3D) (l : list Object3D) :
  splice_first o1 (splice_first o2 l) = splice_first o2 (splice_first o1 l).
Proof.
  induction l as [|x l IH]; [done|].
  cbn [splice_first]. unfold same_object.
  destruct (obj_id x =? obj_id o2) eqn:H2, (obj_id x =? obj_id o1) eqn:H1;
    cbn [splice_first]; unfold same_object; rewrite ?H1, ?H2; try done.
  - apply Nat.eqb_eq in H1, H2. apply splice_first_same_id. congruence.
  - by rewrite IH.
Qed.

Lemma splice_first_fresh (o : Object3D) (l : list Object3D) :
  (∀ x, x ∈ l → obj_id x ≠ obj_id o) → splice_first o (l ++ [o]) = l.
Proof.
  induction l as [|x l IH]; intros Hfresh; cbn [app splice_first]; unfold same_object.
  - by rewrite Nat.eqb_refl.
  - rewrite (proj2 (Nat.eqb_neq _ _)) by (apply Hfresh; left).
    rewrite IH; [done|]. intros y Hy. apply Hfresh. by right.
Qed.

Lemma children_allocated_splice (o : Object3D) (s : ARPlanes) :
  children_allocated s → o ∈ children s →
  NoDup (obj_id <$> splice_first o (children s)) ∧
  (∀ x, x ∈ splice_first o (children s) → x ∈ children s ∧ obj_id x ≠ obj_id o).
Proof.
  intros (Hnd & _) Hin.
  pose proof (splice_first_perm o _ Hnd Hin) as Hperm.
  rewrite Hperm, fmap_cons in Hnd. apply NoDup_cons in Hnd as [Hfresh Hnd].
  split; [done|]. intros x Hx. split.
  - rewrite Hperm. by right.
  - intros Hid. apply Hfresh. rewrite <- Hid. by apply list_elem_of_fmap_2.
Qed.

Lemma splice_first_subset (o x : Object3D) (l : list Object3D) :
  x ∈ splice_first o l → x ∈ l.
Proof.
  induction l as [|y l IH]; [done|].
  cbn [splice_first]. destruct (same_object y o).
  - intros Hx. by right.
  - intros Hx. apply elem_of_cons in Hx as [->|Hx]; [left|right; by apply IH].
Qed.

Lemma batch_ids_cons (p : Plane) (ps : list Plane) :
  batch_ids (p :: ps) = {[identifier p]} ∪ batch_ids ps.
Proof. done. Qed.

(** ** Removing *)

Lemma removePlane_comm (a b : string) (s : ARPlanes) :
  exec (removePlane a) (exec (removePlane b) s) =
  exec (removePlane b) (exec (removePlane a) s).
Proof.
  destruct (decide (a = b)) as [->|Hab]; [done|].
  rewrite (removePlane_exec a (exec (removePlane b) s)).
  rewrite (removePlane_exec b (exec (removePlane a) s)).
  rewrite !removePlane_lookup, decide_False, decide_False by done.
  rewrite !removePlane_exec.
  cbn [children planes materialMap object3DId materialId paletteDraws].
  f_equal; [|apply delete_delete].
  destruct (planes s !! a), (planes s !! b); try done. apply splice_first_comm.
Qed.

Lemma on_planesremoved_step (p : Plane) (ps : list Plane) (s : ARPlanes) :
  exec (on_planesremoved (p :: ps)) s =
  exec (on_planesremoved ps) (exec (removePlane (identifier p)) s).
Proof.
  unfold on_planesremoved.
  exact (for_of_cons p ps (λ plane, removePlane (identifier plane)) s).
Qed.

(** X5: a "planes removed" notification deletes exactly the entries of the
    identifiers it carries, tracked or not, and leaves every other entry
    alone; it stores and clears no colour assignment, makes no object, no
    material and no palette draw, and adds no child. *)
Theorem on_planesremoved_effect (ps : list Plane) (s : ARPlanes) :
  (∀ k, planes (exec (on_planesremoved ps) s) !! k =
        if decide (k ∈ batch_ids ps) then None else planes s !! k) ∧
  materialMap (exec (on_planesremoved ps) s) = materialMap s ∧
  object3DId (exec (on_planesremoved ps) s) = object3DId s ∧
  materialId (exec (on_planesremoved ps) s) = materialId s ∧
  paletteDraws (exec (on_planesremoved ps) s) = paletteDraws s ∧
  (∀ o, o ∈ children (exec (on_planesremoved ps) s) → o ∈ children s).
Proof.
  revert s. induction ps as [|p ps IH]; intros s.
  - by repeat split.
  - rewrite on_planesremoved_step.
    destruct (IH (exec (removePlane (identifier p)) s))
      as (Hlook & -> & -> & -> & -> & Hsub).
    rewrite removePlane_exec at 1 2 3 4.
    cbn [materialMap object3DId materialId paletteDraws].
    repeat split; try done.
    + intros k. rewrite Hlook, removePlane_lookup, batch_ids_cons.
      destruct (decide (identifier p = k)) as [<-|Hne].
      * rewrite (decide_True (P := _ ∈ _ ∪ _)) by set_solver. by case_decide.
      * destruct (decide (k ∈ batch_ids ps)).
        -- by rewrite decide_True by set_solver.
        -- by rewrite decide_False by set_solver.
    + intros o Ho. apply Hsub in Ho. rewrite removePlane_exec in Ho.
      cbn [children] in Ho. destruct (planes s !! identifier p); [|done].
      by eapply splice_first_subset.
Qed.

(** X6: the order in which a "planes removed" notification lists its planes
    does not matter: two batches that are permutations of each other leave
    the same state. *)
Theorem on_planesremoved_permutation (ps ps' : list Plane) (s : ARPlanes) :
  ps ≡ₚ ps' → exec (on_planesremoved ps) s = exec (on_planesremoved ps') s.
Proof.
  intros Hperm. revert s.
  induction Hperm as [|p ps ps' _ IH|p q ps|ps ps' ps'' _ IH1 _ IH2]; intros s.
  - done.
  - rewrite !on_planesremoved_step. apply IH.
  - rewrite !on_planesremoved_step. by rewrite removePlane_comm.
  - by rewrite IH1.
Qed.

Section Invariants.

Context `{Palette}.

(** ** Tracked renderables stay attached *)

Lemma removePlane_registry_inv (id : string) (s : ARPlanes) :
  registry_inv s → registry_inv (exec (removePlane id) s).
Proof.
  intros (Halloc & Hatt & Hinj). rewrite removePlane_exec.
  destruct (planes s !! id) as [o|] eqn:Ho.
  - destruct (children_allocated_splice o s Halloc (Hatt _ _ Ho)) as (Hnd' & Hsub).
    split; [split|split]; cbn [children planes object3DId].
    + done.
    + intros x Hx. apply Halloc. by apply Hsub.
    + intros k o' Hk. apply lookup_delete_Some in Hk as [Hne Hk].
      pose proof (Hatt _ _ Hk) as Hin.
      rewrite (splice_first_perm o _ (proj1 Halloc) (Hatt _ _ Ho)) in Hin.
      apply elem_of_cons in Hin as [->|Hin]; [|done].
      destruct Hne. by apply (Hinj id k o o).
    + intros k k' o1 o2 Hk Hk'.
      apply lookup_delete_Some in Hk as [_ Hk].
      apply lookup_delete_Some in Hk' as [_ Hk']. by apply Hinj.
  - split; [done|]. split; cbn [children planes]; rewrite delete_id by done.
    + apply Hatt.
    + apply Hinj.
Qed.

Lemma addPlane_registry_inv (p : Plane) (s : ARPlanes) :
  registry_inv s → registry_inv (exec (addPlane p) s).
Proof.
  intros ((Hnd & Hlt) & Hatt & Hinj).
  destruct (decide (vertices p = [])) as [Hv|Hv].
  { unfold exec. by rewrite addPlane_empty. }
  destruct (addPlane_scene p s Hv) as (o & Hid & Hpl & Hch & Hnext).
  unfold registry_inv, children_allocated, entries_attached.
  rewrite Hpl, Hch, Hnext. split; [split|split].
  - rewrite fmap_app. apply NoDup_app. split; [done|]. split.
    + intros i Hi Hi'. apply list_elem_of_fmap in Hi as (o' & -> & Ho').
      apply list_elem_of_singleton in Hi'. specialize (Hlt o' Ho'). lia.
    + apply NoDup_singleton.
  - intros o' Ho'. apply elem_of_app in Ho' as [Ho'|Ho'].
    + specialize (Hlt o' Ho'). lia.
    + apply list_elem_of_singleton in Ho'. subst o'. lia.
  - intros k o' Hk. apply elem_of_app.
    apply lookup_insert_Some in Hk as [[_ <-]|[_ Hk]].
    + right. by apply list_elem_of_singleton.
    + left. by eapply Hatt.
  - intros k k' o1 o2 Hk Hk' Hids.
    apply lookup_insert_Some in Hk as [[<- <-]|[Hne Hk]];
      apply lookup_insert_Some in Hk' as [[<- <-]|[Hne' Hk']]; try done.
    + specialize (Hlt _ (Hatt _ _ Hk')). lia.
    + specialize (Hlt _ (Hatt _ _ Hk)). lia.
    + by eapply Hinj.
Qed.

Lemma dispatch_registry_inv (e : Event) (s : ARPlanes) :
  registry_inv s → registry_inv (exec (dispatch e) s).
Proof.
  destruct e as [ps|ps|ps]; cbn [dispatch];
    unfold on_planesadded, on_planesupdated, on_planesremoved;
    revert s; induction ps as [|p ps IH]; intros s Hinv; try done;
    rewrite for_of_cons; apply IH.
  - by apply addPlane_registry_inv.
  - rewrite exec_bind. by apply addPlane_registry_inv, removePlane_registry_inv.
  - by apply removePlane_registry_inv.
Qed.

Lemma run_registry_inv (es : list Event) (s : ARPlanes) :
  registry_inv s → registry_inv (run es s).
Proof.
  unfold run. revert s. induction es as [|e es IH]; intros s Hinv; [done|].
  rewrite for_of_cons. by apply IH, dispatch_registry_inv.
Qed.

Lemma constructed_registry_inv : registry_inv constructed.
Proof.
  split; [split|split]; cbn [constructed children planes].
  - apply NoDup_nil_2.
  - intros o Ho. by apply elem_of_nil in Ho.
  - intros k o Hk. by rewrite lookup_empty in Hk.
  - intros k k' o o' Hk. by rewrite lookup_empty in Hk.
Qed.

Lemma registry_inv_count (s : ARPlanes) :
  registry_inv s → update s ≤ length (children s).
Proof.
  intros (_ & Hatt & Hinj). unfold update.
  rewrite <- length_map_to_list, <- (length_fmap snd).
  apply submseteq_length, NoDup_submseteq.
  - apply NoDup_fmap_2_strong; [|apply NoDup_map_to_list].
    intros [k o] [k' o'] Hk Hk' Heq. cbn in Heq. subst o'.
    apply elem_of_map_to_list in Hk, Hk'.
    by rewrite (Hinj k k' o o Hk Hk' eq_refl).
  - intros o Ho. apply list_elem_of_fmap in Ho as ([k o'] & -> & Hk).
    apply elem_of_map_to_list in Hk. by eapply Hatt.
Qed.

(** X1: whatever notifications arrive after construction, every renderable
    the entry map holds is a child of the node, the entries of distinct
    identifiers are distinct objects, the children are distinct objects with
    ids below the id counter, and the count [update] reports never exceeds
    the number of children. *)
Theorem run_entries_attached (es : list Event) :
  (∀ k o, planes (run es constructed) !! k = Some o → o ∈ children (run es constructed)) ∧
  (∀ k k' o o', planes (run es constructed) !! k = Some o →
                planes (run es constructed) !! k' = Some o' →
                obj_id o = obj_id o' → k = k') ∧
  NoDup (obj_id <$> children (run es constructed)) ∧
  (∀ o, o ∈ children (run es constructed) → obj_id o < object3DId (run es constructed)) ∧
  update (run es constructed) ≤ length (children (run es constructed)).
Proof.
  pose proof (run_registry_inv es constructed constructed_registry_inv) as Hinv.
  pose proof (registry_inv_count _ Hinv) as Hcount.
  destruct Hinv as ((Hnd & Hlt) & Hatt & Hinj). by repeat split.
Qed.

(** ** Colour assignments *)

Lemma createPlane_materialMap_ne (p : Plane) (k : string) (s : ARPlanes) :
  identifier p ≠ k → materialMap (exec (createPlane p) s) !! k = materialMap s !! k.
Proof.
  intros Hk. destruct (decide (vertices p = [])) as [Hv|Hv].
  - unfold exec. by rewrite createPlane_empty.
  - rewrite createPlane_exec by done.
    destruct (materialMap s !! identifier p); cbn [materialMap]; [done|].
    by rewrite lookup_insert_ne.
Qed.

Lemma addPlane_colours_consistent (p : Plane) (s : ARPlanes) :
  colours_consistent s → colours_consistent (exec (addPlane p) s).
Proof.
  intros Hcol. destruct (decide (vertices p = [])) as [Hv|Hv].
  { unfold exec. by rewrite addPlane_empty. }
  destruct (createPlane_node p s Hv) as (o & mesh & Ho & _ & Hch & _ & Hmat & _).
  destruct (addPlane_planes p s Hv) as (o' & Ho' & Hpl & _).
  rewrite Ho in Ho'. simplify_eq.
  intros k o Hk. rewrite Hpl in Hk. rewrite addPlane_materialMap.
  apply lookup_insert_Some in Hk as [[<- <-]|[Hne Hk]].
  - exists mesh. split; [done|]. by rewrite createPlane_stores, Hmat.
  - rewrite createPlane_materialMap_ne by done. by apply Hcol.
Qed.

Lemma removePlane_colours_consistent (id : string) (s : ARPlanes) :
  colours_consistent s → colours_consistent (exec (removePlane id) s).
Proof.
  intros Hcol k o Hk. rewrite removePlane_materialMap.
  rewrite removePlane_lookup in Hk. case_decide; [done|]. by apply Hcol.
Qed.

Lemma dispatch_colours_consistent (e : Event) (s : ARPlanes) :
  colours_consistent s → colours_consistent (exec (dispatch e) s).
Proof.
  destruct e as [ps|ps|ps]; cbn [dispatch];
    unfold on_planesadded, on_planesupdated, on_planesremoved;
    revert s; induction ps as [|p ps IH]; intros s Hinv; try done;
    rewrite for_of_cons; apply IH.
  - by apply addPlane_colours_consistent.
  - rewrite exec_bind.
    by apply addPlane_colours_consistent, removePlane_colours_consistent.
  - by apply removePlane_colours_consistent.
Qed.

(** X2: whatever notifications arrive after construction, the renderable of
    every tracked identifier has exactly one mesh, and the material of that
    mesh is the one [materialMap] holds for the identifier; in particular
    every tracked identifier has a colour assignment. *)
Theorem run_colours_consistent (es : list Event) :
  (∀ k o, planes (run es constructed) !! k = Some o →
     ∃ mesh, obj_children o = [mesh] ∧
             materialMap (run es constructed) !! k = Some (mesh_material mesh)) ∧
  dom (planes (run es constructed)) ⊆ dom (materialMap (run es constructed)).
Proof.
  assert (colours_consistent (run es constructed)) as Hcol.
  { unfold run.
    assert (colours_consistent constructed) as H0.
    { intros k o Hk. cbn in Hk. by rewrite lookup_empty in Hk. }
    revert H0. generalize constructed as s.
    induction es as [|e es IH]; intros s Hs; [done|].
    rewrite for_of_cons. by apply IH, dispatch_colours_consistent. }
  split; [exact Hcol|].
  intros k Hk. apply elem_of_dom in Hk as [o Ho].
  destruct (Hcol k o Ho) as (mesh & _ & Hm). apply elem_of_dom. by eexists.
Qed.

(** ** Materials and palette draws *)

Lemma createPlane_materials_accounted (p : Plane) (s : ARPlanes) :
  materials_accounted s → materials_accounted (exec (createPlane p) s).
Proof.
  intros (Hdraws & Hid & Hform & Hinj).
  destruct (decide (vertices p = [])) as [Hv|Hv].
  { unfold exec. by rewrite createPlane_empty. }
  rewrite createPlane_exec by done.
  destruct (materialMap s !! identifier p) as [m0|] eqn:Hm0.
  { by repeat split. }
  assert (fresh_material s = palette_material (paletteDraws s)) as Hfresh.
  { unfold fresh_material, palette_material. by rewrite Hid, Hdraws. }
  unfold materials_accounted. cbn [paletteDraws materialId materialMap].
  rewrite map_size_insert_None by done.
  split; [by rewrite Hdraws|]. split; [by rewrite Hid|]. split.
  - intros k m Hk. apply lookup_insert_Some in Hk as [[_ <-]|[_ Hk]].
    + exists (paletteDraws s). split; [lia|done].
    + destruct (Hform k m Hk) as (n & Hn & ->). exists n. split; [lia|done].
  - intros k k' m m' Hk Hk' Hids.
    apply lookup_insert_Some in Hk as [[<- <-]|[Hne Hk]];
      apply lookup_insert_Some in Hk' as [[<- <-]|[Hne' Hk']]; try done.
    + destruct (Hform k' m' Hk') as (n & Hn & ->).
      rewrite Hfresh in Hids. cbn in Hids. lia.
    + destruct (Hform k m Hk) as (n & Hn & ->).
      rewrite Hfresh in Hids. cbn in Hids. lia.
    + by eapply Hinj.
Qed.

Lemma addPlane_materialId (p : Plane) (s : ARPlanes) :
  materialId (exec (addPlane p) s) = materialId (exec (createPlane p) s).
Proof. rewrite addPlane_exec. by destruct (eval (createPlane p) s). Qed.

Lemma addPlane_materials_accounted (p : Plane) (s : ARPlanes) :
  materials_accounted s → materials_accounted (exec (addPlane p) s).
Proof.
  intros Hacc. apply (createPlane_materials_accounted p) in Hacc.
  unfold materials_accounted in *.
  by rewrite addPlane_paletteDraws, addPlane_materialMap, addPlane_materialId.
Qed.

Lemma removePlane_materials_accounted (id : string) (s : ARPlanes) :
  materials_accounted s → materials_accounted (exec (removePlane id) s).
Proof. intros Hacc. by rewrite removePlane_exec. Qed.

Lemma dispatch_materials_accounted (e : Event) (s : ARPlanes) :
  materials_accounted s → materials_accounted (exec (dispatch e) s).
Proof.
  destruct e as [ps|ps|ps]; cbn [dispatch];
    unfold on_planesadded, on_planesupdated, on_planesremoved;
    revert s; induction ps as [|p ps IH]; intros s Hinv; try done;
    rewrite for_of_cons; apply IH.
  - by apply addPlane_materials_accounted.
  - rewrite exec_bind.
    by apply addPlane_materials_accounted, removePlane_materials_accounted.
  - by apply removePlane_materials_accounted.
Qed.

Lemma constructed_materials_accounted : materials_accounted constructed.
Proof.
  repeat split; cbn [constructed materialMap];
    intros k * Hk; by rewrite lookup_empty in Hk.
Qed.

(** X3: whatever notifications arrive after construction, the palette has
    been drawn from exactly once per identifier that has a colour assignment,
    every stored material is a clone of the template whose background is the
    colour of one of those draws (all other settings the template's), and
    distinct identifiers hold distinct material objects. *)
Theorem run_materials_accounted (es : list Event) :
  paletteDraws (run es constructed) = size (materialMap (run es constructed)) ∧
  materialId (run es constructed) = S (size (materialMap (run es constructed))) ∧
  (∀ k m, materialMap (run es constructed) !! k = Some m →
     ∃ n, n < paletteDraws (run es constructed) ∧
          m = palette_material n ∧
          backgroundColor (uniforms m) = getRandomPaletteColor n ∧
          side m = DoubleSide ∧ transparent m = true ∧
          dotColor (uniforms m) = dotColor (uniforms DEFAULT_MATERIAL) ∧
          lineColor (uniforms m) = lineColor (uniforms DEFAULT_MATERIAL) ∧
          dotRadius (uniforms m) = dotRadius (uniforms DEFAULT_MATERIAL) ∧
          alpha (uniforms m) = alpha (uniforms DEFAULT_MATERIAL)) ∧
  (∀ k k' m m', materialMap (run es constructed) !! k = Some m →
                materialMap (run es constructed) !! k' = Some m' →
                material_id m = material_id m' → k = k').
Proof.
  assert (materials_accounted (run es constructed)) as (Hdraws & Hid & Hform & Hinj).
  { unfold run. pose proof constructed_materials_accounted as H0.
    revert H0. generalize constructed as s.
    induction es as [|e es IH]; intros s Hs; [done|].
    rewrite for_of_cons. by apply IH, dispatch_materials_accounted. }
  split; [done|]. split; [done|]. split; [|done].
  intros k m Hk. destruct (Hform k m Hk) as (n & Hn & ->).
  exists n. by repeat split.
Qed.

(** X4: no notification removes or changes a colour assignment: a material
    stored for an identifier is still stored for it after any sequence of
    notifications, "planes removed" included, and the number of assignments
    never shrinks. *)
Theorem run_materialMap_grows (es : list Event) (s : ARPlanes) :
  (∀ k m, materialMap s !! k = Some m → materialMap (run es s) !! k = Some m) ∧
  size (materialMap s) ≤ size (materialMap (run es s)).
Proof.
  assert (∀ k m, materialMap s !! k = Some m → materialMap (run es s) !! k = Some m)
    as Hkeep.
  { intros k m. unfold run. revert s.
    induction es as [|e es IH]; intros s Hm; [done|].
    rewrite for_of_cons. by apply IH, dispatch_keeps_material. }
  split; [done|].
  apply map_subseteq_size, map_subseteq_spec. done.
Qed.

(** ** Adding and removing *)

(** X7: adding a plane with vertices under an untracked identifier and then
    removing that identifier gives back the children and the entry map as
    they were (the children being objects the id counter has handed out);
    what stays behind is the colour assignment and the used-up ids. *)
Theorem addPlane_removePlane_roundtrip (p : Plane) (s : ARPlanes) :
  vertices p ≠ [] →
  planes s !! identifier p = None →
  children_allocated s →
  children (exec (removePlane (identifier p)) (exec (addPlane p) s)) = children s ∧
  planes (exec (removePlane (identifier p)) (exec (addPlane p) s)) = planes s ∧
  update (exec (removePlane (identifier p)) (exec (addPlane p) s)) = update s ∧
  is_Some (materialMap (exec (removePlane (identifier p)) (exec (addPlane p) s))
             !! identifier p) ∧
  object3DId (exec (removePlane (identifier p)) (exec (addPlane p) s))
    = S (S (object3DId s)).
Proof.
  intros Hv Hnone (_ & Hlt).
  destruct (addPlane_scene p s Hv) as (o & Hid & Hpl & Hch & Hnext).
  rewrite removePlane_exec. unfold update.
  cbn [children planes materialMap object3DId].
  rewrite Hpl, Hch, Hnext, lookup_insert_eq, delete_insert_id by done.
  repeat split; try done.
  - apply splice_first_fresh. intros x Hx. specialize (Hlt x Hx). lia.
  - rewrite addPlane_materialMap, createPlane_stores by done. by eexists.
Qed.

(** X8: what [update] reports after one operation: [addPlane] of a plane with
    vertices counts one more when the identifier was not tracked and the same
    when it was; [removePlane] counts one less when the identifier was tracked
    and the same when it was not. *)
Theorem update_after_step (p : Plane) (id : string) (s : ARPlanes) :
  (vertices p ≠ [] → planes s !! identifier p = None →
     update (exec (addPlane p) s) = S (update s)) ∧
  (vertices p ≠ [] → is_Some (planes s !! identifier p) →
     update (exec (addPlane p) s) = update s) ∧
  (is_Some (planes s !! id) → S (update (exec (removePlane id) s)) = update s) ∧
  (planes s !! id = None → update (exec (removePlane id) s) = update s).
Proof.
  unfold update. repeat split.
  - intros Hv Hnone. destruct (addPlane_planes p s Hv) as (o & _ & -> & _).
    by apply map_size_insert_None.
  - intros Hv Htracked. destruct (addPlane_planes p s Hv) as (o & _ & -> & _).
    by apply map_size_insert_Some.
  - intros Htracked. rewrite removePlane_exec. cbn [planes].
    rewrite map_size_delete_Some by done.
    assert (size (planes s) ≠ 0); [|lia].
    apply map_size_ne_0_lookup. by exists id.
  - intros Hnone. rewrite removePlane_exec. cbn [planes]. by rewrite delete_id.
Qed.

(** X14: for an identifier without entry the step of the update listener is
    the step of the add listener: the removal changes nothing, so a plane
    first heard of through "planes updated" is added like any new plane. *)
Theorem update_step_untracked (p : Plane) (s : ARPlanes) :
  planes s !! identifier p = None →
  (removePlane (identifier p) ≫= λ _, addPlane p) s = addPlane p s ∧
  exec (on_planesupdated [p]) s = exec (on_planesadded [p]) s.
Proof.
  intros Hnone.
  assert (removePlane (identifier p) s = (tt, s)) as Hnoop.
  { unfold removePlane. unfold_js. rewrite Hnone.
    unfold set_planes. rewrite delete_id by done. by destruct s. }
  assert ((removePlane (identifier p) ≫= λ _, addPlane p) s = addPlane p s) as Hstep.
  { unfold mbind, JS_bind. by rewrite Hnoop. }
  split; [done|].
  unfold on_planesupdated, on_planesadded. rewrite !for_of_cons.
  unfold exec at 2 4. by rewrite Hstep.
Qed.

(** ** Notifications touch only what they carry *)

Lemma addPlane_materialMap_ne (p : Plane) (k : string) (s : ARPlanes) :
  identifier p ≠ k → materialMap (exec (addPlane p) s) !! k = materialMap s !! k.
Proof. intros Hk. by rewrite addPlane_materialMap, createPlane_materialMap_ne. Qed.

(** X9: a notification leaves the entry and the colour assignment of every
    identifier it does not carry as they were. *)
Theorem dispatch_frame (e : Event) (k : string) (s : ARPlanes) :
  k ∉ event_ids e →
  planes (exec (dispatch e) s) !! k = planes s !! k ∧
  materialMap (exec (dispatch e) s) !! k = materialMap s !! k.
Proof.
  unfold event_ids.
  destruct e as [ps|ps|ps]; cbn [dispatch event_batch];
    unfold on_planesadded, on_planesupdated, on_planesremoved;
    revert s; induction ps as [|p ps IH]; intros s Hk; try done;
    rewrite batch_ids_cons in Hk;
    (assert (identifier p ≠ k) as Hne by set_solver);
    (assert (k ∉ batch_ids ps) as Hk' by set_solver);
    rewrite for_of_cons;
    match goal with
    | |- context [exec (for_of ps _) ?s'] => destruct (IH s' Hk') as [-> ->]
    end.
  - by rewrite addPlane_lookup_ne, addPlane_materialMap_ne.
  - rewrite update_step_lookup_ne by done.
    by rewrite exec_bind, addPlane_materialMap_ne, removePlane_materialMap.
  - rewrite removePlane_lookup, decide_False by done.
    by rewrite removePlane_materialMap.
Qed.

(** ** A device that never re-adds a tracked plane *)

Lemma on_planesadded_wf (ps : list Plane) (s : ARPlanes) :
  adds_untracked (dom (planes s)) ps → scene_wf s →
  scene_wf (exec (on_planesadded ps) s).
Proof.
  unfold on_planesadded. revert s.
  induction ps as [|p ps IH]; intros s Hps Hwf; [done|].
  destruct Hps as [Hnew Hps]. rewrite for_of_cons. apply IH.
  - by rewrite addPlane_dom.
  - apply addPlane_wf_untracked; [done|]. by apply not_elem_of_dom.
Qed.

Lemma run_scene_wf (es : list Event) (s : ARPlanes) :
  device_protocol (dom (planes s)) es → scene_wf s → scene_wf (run es s).
Proof.
  unfold run. revert s.
  induction es as [|e es IH]; intros s Hes Hwf; [done|].
  destruct Hes as [He Hes]. rewrite for_of_cons. apply IH.
  - by rewrite dispatch_dom.
  - destruct e as [ps|ps|ps]; cbn [dispatch].
    + by apply on_planesadded_wf.
    + by apply on_planesupdated_wf.
    + by apply on_planesremoved_wf.
Qed.

Lemma scene_wf_count (s : ARPlanes) : scene_wf s → update s = length (children s).
Proof.
  intros (Hsync & _). unfold scene_synced, renderables in Hsync.
  unfold update. by rewrite Hsync, length_fmap, length_map_to_list.
Qed.

(** X10: when the device reports a plane as added only while its identifier
    is not tracked, then after any sequence of notifications the children of
    the node are exactly the renderables of the entry map, each once, and
    [update] reports the number of children. *)
Theorem run_scene_synced (es : list Event) :
  device_protocol ∅ es →
  children (run es constructed) ≡ₚ renderables (run es constructed) ∧
  NoDup (obj_id <$> children (run es constructed)) ∧
  update (run es constructed) = length (children (run es constructed)).
Proof.
  intros Hes.
  assert (scene_wf (run es constructed)) as Hwf.
  { apply run_scene_wf.
    - cbn [constructed planes]. by rewrite dom_empty_L.
    - split; [|split].
      + unfold scene_synced, renderables. cbn [constructed children planes].
        by rewrite map_to_list_empty.
      + apply NoDup_nil_2.
      + intros o Ho. by apply elem_of_nil in Ho. }
  pose proof (scene_wf_count _ Hwf) as Hcount.
  destruct Hwf as (Hsync & Hnd & _). by repeat split.
Qed.

End Invariants.

(** * Further properties of the geometry *)

Lemma vertex_at_skip (a b c : number) (rest : list number) (pt : nat) :
  vertex_at (a :: b :: c :: rest) (S pt) = vertex_at rest pt.
Proof.
  unfold vertex_at.
  replace (S pt * 3) with (S (S (S (pt * 3)))) by lia.
  replace (S (S (S (pt * 3))) + 1) with (S (S (S (pt * 3 + 1)))) by lia.
  by replace (S (S (S (pt * 3))) + 2) with (S (S (S (pt * 3 + 2)))) by lia.
Qed.

Lemma points_flatten (n : nat) (vs : list number) :
  length vs = 3 * n →
  concat (coordinates <$> (vertex_at vs <$> seq 0 n))
  = (λ x, Some (or_zero (Some x))) <$> vs.
Proof.
  revert vs. induction n as [|n IH]; intros vs Hlen.
  - by rewrite (nil_length_inv vs Hlen).
  - destruct vs as [|a [|b [|c rest]]]; cbn [length] in Hlen; try lia.
    cbn [seq fmap list_fmap concat].
    rewrite <- fmap_S_seq, <- (list_fmap_compose S (vertex_at (a :: b :: c :: rest))).
    rewrite (list_fmap_ext (vertex_at (a :: b :: c :: rest) ∘ S) (vertex_at rest))
      by (intros i x _; apply vertex_at_skip).
    rewrite IH by lia. done.
Qed.

Lemma fan_face_bounds (n : nat) (f : Face3) :
  f ∈ triangle_fan n →
  face_a f = 0 ∧ 0 < face_b f ∧ face_c f = S (face_b f) ∧ face_c f < n.
Proof.
  unfold triangle_fan. intros Hf.
  apply list_elem_of_fmap in Hf as (face & -> & Hface).
  apply elem_of_seq in Hface. cbn [fan_face face_a face_b face_c]. lia.
Qed.

Section Geometry.

Context `{Palette}.

(** X11: for a vertex list of whole triples, the points of the mesh are the
    triples in order, each number [x] stored as [x || 0]: every coordinate is
    defined, and the coordinates of the points laid end to end are the vertex
    list with [x || 0] for every [x]; they are the vertex list itself when the
    constructor keeps every number (none is [NaN] or [-0]). *)
Theorem createPlane_points_roundtrip (p : Plane) (s : ARPlanes) (n : nat) :
  vertices p ≠ [] →
  length (vertices p) = 3 * n →
  ∃ o mesh,
    eval (createPlane p) s = Some o ∧
    obj_children o = [mesh] ∧
    length (geo_vertices (mesh_geometry mesh)) = n ∧
    concat (coordinates <$> geo_vertices (mesh_geometry mesh))
      = (λ x, Some (or_zero (Some x))) <$> vertices p ∧
    (Forall (λ x, or_zero (Some x) = x) (vertices p) →
     concat (coordinates <$> geo_vertices (mesh_geometry mesh)) = Some <$> vertices p) ∧
    (∀ v, v ∈ geo_vertices (mesh_geometry mesh) →
          is_Some (vx v) ∧ is_Some (vy v) ∧ is_Some (vz v)).
Proof.
  intros Hv Hlen.
  destruct (createPlane_node p s Hv) as (o & mesh & Ho & _ & Hch & _ & _ & Hgeo).
  exists o, mesh. rewrite Hgeo. cbn [geo_vertices].
  rewrite (generate_vertices_triples _ n Hlen), (points_flatten n _ Hlen).
  split; [done|]. split; [done|]. split; [by rewrite length_fmap, length_seq|].
  split; [done|]. split.
  - intros Hkept. apply list_fmap_ext. intros i x Hx.
    f_equal. rewrite Forall_forall in Hkept. apply Hkept.
    by eapply list_elem_of_lookup_2.
  - intros v Hin. apply list_elem_of_fmap in Hin as (pt & -> & Hpt).
    unfold vertex_at, new_Vector3. cbn [vx vy vz]. by repeat split.
Qed.

(** X12: a vertex list whose length is not a multiple of 3 is not rejected:
    the mesh gets one point more than there are whole triples, and the
    coordinates that last point reads past the end of the list are stored as
    [0]: its [z] is [0], and so is its [y] when only one number is left
    over; its [x] is the first left-over number [x], stored as [x || 0]. *)
Theorem createPlane_ragged_vertices (p : Plane) (s : ARPlanes) :
  length (vertices p) mod 3 ≠ 0 →
  ∃ o mesh v x,
    eval (createPlane p) s = Some o ∧
    obj_children o = [mesh] ∧
    length (geo_vertices (mesh_geometry mesh)) = S (length (vertices p) / 3) ∧
    last (geo_vertices (mesh_geometry mesh)) = Some v ∧
    vertices p !! (length (vertices p) / 3 * 3) = Some x ∧
    vx v = Some (or_zero (Some x)) ∧
    vz v = Some 0%float ∧
    (length (vertices p) mod 3 = 1 → vy v = Some 0%float) ∧
    (length (vertices p) mod 3 = 2 →
     ∃ y, vertices p !! (length (vertices p) / 3 * 3 + 1) = Some y ∧
          vy v = Some (or_zero (Some y))).
Proof.
  intros Hmod.
  pose proof (Nat.div_mod_eq (length (vertices p)) 3) as Hdiv.
  pose proof (Nat.mod_upper_bound (length (vertices p)) 3) as Hlt.
  assert (vertices p ≠ []) as Hv.
  { intros Hnil. by rewrite Hnil in Hmod. }
  destruct (createPlane_node p s Hv) as (o & mesh & Ho & _ & Hch & _ & _ & Hgeo).
  destruct (lookup_lt_is_Some_2 (vertices p) (length (vertices p) / 3 * 3))
    as [x Hx]; [lia|].
  exists o, mesh, (vertex_at (vertices p) (length (vertices p) / 3)), x.
  rewrite Hgeo. cbn [geo_vertices].
  rewrite (generate_vertices_points _ (S (length (vertices p) / 3))) by (intros pt; lia).
  split; [done|]. split; [done|]. split; [by rewrite length_fmap, length_seq|].
  split.
  { rewrite seq_S, fmap_app. cbn [fmap list_fmap]. by rewrite last_snoc. }
  unfold vertex_at, new_Vector3. cbn [vx vy vz].
  split; [done|]. split; [by rewrite Hx|]. split; [|split].
  - by rewrite lookup_ge_None_2 by lia.
  - intros Hone. by rewrite lookup_ge_None_2 by lia.
  - intros Htwo.
    destruct (lookup_lt_is_Some_2 (vertices p) (length (vertices p) / 3 * 3 + 1))
      as [y Hy]; [lia|].
    exists y. by rewrite Hy.
Qed.

(** X15: [createPlane] returns [null] exactly for the empty vertex list; any
    other list, even one or two numbers, gives a node, and then the state
    moves on by two object ids. *)
Theorem createPlane_null_iff_empty (p : Plane) (s : ARPlanes) :
  (eval (createPlane p) s = None ↔ vertices p = []) ∧
  (vertices p = [] → exec (createPlane p) s = s) ∧
  (vertices p ≠ [] → object3DId (exec (createPlane p) s) = S (S (object3DId s))).
Proof.
  split; [split|split].
  - intros Hnull. destruct (decide (vertices p = [])) as [Hv|Hv]; [done|].
    destruct (createPlane_node p s Hv) as (o & mesh & Ho & _). congruence.
  - intros Hv. unfold eval. by rewrite createPlane_empty.
  - intros Hv. unfold exec. by rewrite createPlane_empty.
  - intros Hv. rewrite createPlane_exec by done.
    by destruct (materialMap s !! identifier p).
Qed.

(** X13: the faces of a mesh only name points the mesh has: every face is
    [(0, b, b + 1)] with [0 < b] and [b + 1] below the number of points, and
    there are two faces fewer than points (none for one or two points),
    whatever the length of the vertex list. *)
Theorem createPlane_faces_in_range (p : Plane) (s : ARPlanes) :
  vertices p ≠ [] →
  ∃ o mesh,
    eval (createPlane p) s = Some o ∧
    obj_children o = [mesh] ∧
    length (geo_vertices (mesh_geometry mesh)) = (length (vertices p) + 2) / 3 ∧
    length (geo_faces (mesh_geometry mesh))
      = length (geo_vertices (mesh_geometry mesh)) - 2 ∧
    (∀ f, f ∈ geo_faces (mesh_geometry mesh) →
          face_a f = 0 ∧ 0 < face_b f ∧ face_c f = S (face_b f) ∧
          face_c f < length (geo_vertices (mesh_geometry mesh))).
Proof.
  intros Hv.
  destruct (createPlane_node p s Hv) as (o & mesh & Ho & _ & Hch & _ & _ & Hgeo).
  exists o, mesh. rewrite Hgeo. cbn [geo_vertices geo_faces].
  rewrite generate_faces_fan, triangle_fan_length.
  split; [done|]. split; [done|]. split; [apply generate_vertices_length|].
  split; [done|]. apply fan_face_bounds.
Qed.

End Geometry.

(** * The properties on sample inputs *)

Section Examples.

#[local] Existing Instance counting_palette.

(** Scenario A: one entry, triangles (0,1,2) and (0,2,3). *)
Example scenario_A :
  update (run [planesadded [plane_p1]] constructed) = 1 ∧
  (λ o, geo_faces ∘ mesh_geometry <$> obj_children o)
    <$> planes (run [planesadded [plane_p1]] constructed) !! "p1"
  = Some [[mkFace3 0 1 2; mkFace3 0 2 3]].
Proof. split; vm_compute; reflexivity. Qed.

(** Scenario C: add p1, add p2, remove p1. *)
Example scenario_C :
  update (run [planesadded [plane_p1]; planesadded [plane_p2];
               planesremoved [plane_p1]] constructed) = 1 ∧
  dom (planes (run [planesadded [plane_p1]; planesadded [plane_p2];
                    planesremoved [plane_p1]] constructed)) = {["p2"]}.
Proof.
  split; [vm_compute; reflexivity|].
  rewrite run_dom. cbn. unfold track_add, track_remove. cbn. set_solver.
Qed.

(** C1, refuted as stated: after [removePlane] of the tracked p1 its colour
    assignment is still in [materialMap]; the upsert that follows finds it,
    draws nothing from the palette (one draw in all, not two) and the new
    renderable carries the colour of the first draw. *)
Lemma removePlane_keeps_color_assignment :
  planes (exec (removePlane "p1") (exec (addPlane plane_p1) constructed)) !! "p1" = None ∧
  materialMap (exec (removePlane "p1") (exec (addPlane plane_p1) constructed)) !! "p1"
    = Some (set_backgroundColor (getRandomPaletteColor 0)
              (mkMaterial 1 DoubleSide true (uniforms DEFAULT_MATERIAL))) ∧
  paletteDraws (exec (removePlane "p1") (exec (addPlane plane_p1) constructed)) = 1 ∧
  paletteDraws (exec (addPlane plane_p1_grown)
                  (exec (removePlane "p1") (exec (addPlane plane_p1) constructed))) = 1 ∧
  (λ o, backgroundColor ∘ uniforms ∘ mesh_material <$> obj_children o)
    <$> planes (exec (addPlane plane_p1_grown)
                  (exec (removePlane "p1") (exec (addPlane plane_p1) constructed))) !! "p1"
  = Some [getRandomPaletteColor 0] ∧
  getRandomPaletteColor 1 ≠ getRandomPaletteColor 0.
Proof.
  repeat split; try (vm_compute; reflexivity).
  vm_compute. discriminate.
Qed.


(** C3, refuted as stated: a plane without vertices in an "added" batch has
    been added and never removed, yet it has no entry. *)
Lemma planesadded_empty_not_tracked :
  "p1" ∈ added_not_removed [planesadded [plane_p1_empty]] ∧
  dom (planes (run [planesadded [plane_p1_empty]] constructed)) = ∅ ∧
  dom (planes (run [planesadded [plane_p1_empty]] constructed))
    ≠ added_not_removed [planesadded [plane_p1_empty]].
Proof.
  assert ("p1" ∈ added_not_removed [planesadded [plane_p1_empty]]) as Hin.
  { unfold added_not_removed, batch_ids. cbn. set_solver. }
  assert (dom (planes (run [planesadded [plane_p1_empty]] constructed)) = ∅) as Hdom.
  { rewrite run_dom. cbn. unfold track_add. cbn. set_solver. }
  split; [done|]. split; [done|].
  rewrite Hdom. intros Heq. rewrite <- Heq in Hin. set_solver.
Qed.


(** The square of scenario A has four points: two triangles. *)
Lemma createPlane_triangle_fan_witness :
  length (vertices plane_p1) = 3 * 4 ∧
  ∃ o mesh,
    eval (createPlane plane_p1) constructed = Some o ∧
    obj_children o = [mesh] ∧
    geo_faces (mesh_geometry mesh) = [mkFace3 0 1 2; mkFace3 0 2 3].
Proof.
  split; [reflexivity|].
  destruct (createPlane_triangle_fan plane_p1 constructed 4 eq_refl) as [_ Hfan].
  destruct (Hfan ltac:(lia)) as (o & mesh & Ho & Hch & _ & _ & _ & _ & Hfour).
  exists o, mesh. split; [exact Ho|]. split; [exact Hch|]. exact (Hfour eq_refl).
Defined.

(** The square's node carries the device matrix as it is. *)
Lemma createPlane_fixed_matrix_witness :
  vertices plane_p1 ≠ [] ∧
  ∃ o, eval (createPlane plane_p1) constructed = Some o ∧
       matrixAutoUpdate o = false ∧
       elements (matrix o) = Some <$> identity_pose.
Proof.
  assert (vertices plane_p1 ≠ []) as Hv by discriminate.
  split; [exact Hv|].
  destruct (createPlane_fixed_matrix plane_p1 constructed Hv)
    as (o & Ho & Hauto & _ & _ & Hall & _).
  exists o. split; [exact Ho|]. split; [exact Hauto|]. exact (Hall eq_refl).
Defined.

(** Scenario B, on a registry that already tracks p1. *)
Lemma addPlane_empty_vertices_noop_witness :
  vertices plane_p1_empty = [] ∧
  addPlane plane_p1_empty (exec (addPlane plane_p1) constructed)
    = (tt, exec (addPlane plane_p1) constructed).
Proof.
  split; [reflexivity|].
  exact (proj1 (proj2 (addPlane_empty_vertices_noop plane_p1_empty
                         (exec (addPlane plane_p1) constructed) eq_refl))).
Defined.

(** Removing p1 from the fresh registry, where it has no entry. *)
Lemma removePlane_idempotent_witness :
  planes constructed !! "p1" = None ∧ removePlane "p1" constructed = (tt, constructed).
Proof.
  assert (planes constructed !! "p1" = None) as Hnone by reflexivity.
  split; [exact Hnone|].
  exact (proj2 (removePlane_idempotent "p1" constructed) Hnone).
Defined.

(** Scenario D by two upserts, with a removal of p1 in between. *)
Lemma addPlane_reuses_material_witness :
  ∃ o o' mesh mesh',
    planes (exec (addPlane plane_p1) constructed) !! "p1" = Some o ∧
    obj_children o = [mesh] ∧
    planes (exec (addPlane plane_p1_grown)
              (exec (removePlane "p1") (exec (addPlane plane_p1) constructed))) !! "p1"
      = Some o' ∧
    obj_children o' = [mesh'] ∧
    mesh_material mesh' = mesh_material mesh.
Proof.
  assert (vertices plane_p1 ≠ []) as Hv by discriminate.
  assert (vertices plane_p1_grown ≠ []) as Hv' by discriminate.
  assert (materialMap (exec (removePlane "p1") (exec (addPlane plane_p1) constructed))
            !! identifier plane_p1
          = materialMap (exec (addPlane plane_p1) constructed) !! identifier plane_p1)
    as Hkept by (vm_compute; reflexivity).
  destruct (addPlane_reuses_material plane_p1 plane_p1_grown constructed
              (exec (removePlane "p1") (exec (addPlane plane_p1) constructed))
              eq_refl Hv Hv' Hkept)
    as (o & o' & mesh & mesh' & Ho & Hch & Ho' & Hch' & Hsame & _).
  exists o, o', mesh, mesh'.
  split; [exact Ho|]. split; [exact Hch|]. split; [exact Ho'|].
  split; [exact Hch'|]. exact Hsame.
Defined.

(** C10, refuted as stated: an update batch that carries p1 without vertices
    and then p1 with vertices leaves p1 tracked. *)
Lemma planesupdated_later_plane_retracks :
  vertices plane_p1_empty = [] ∧
  plane_p1_empty ∈ [plane_p1_empty; plane_p1] ∧
  is_Some (planes (exec (addPlane plane_p1) constructed) !! "p1") ∧
  is_Some (planes (exec (dispatch (planesupdated [plane_p1_empty; plane_p1]))
                     (exec (addPlane plane_p1) constructed)) !! "p1") ∧
  "p1" ∈ dom (planes (exec (dispatch (planesupdated [plane_p1_empty; plane_p1]))
                        (exec (addPlane plane_p1) constructed))).
Proof.
  assert (is_Some (planes (exec (dispatch (planesupdated [plane_p1_empty; plane_p1]))
                             (exec (addPlane plane_p1) constructed)) !! "p1")) as Hafter.
  { destruct (planes _ !! "p1") eqn:Hlook; [by eexists|].
    vm_compute in Hlook. discriminate. }
  split; [reflexivity|]. split; [left|]. split; [|split].
  - destruct (planes _ !! "p1") eqn:Hlook; [by eexists|].
    vm_compute in Hlook. discriminate.
  - exact Hafter.
  - by apply elem_of_dom.
Qed.

(** An update batch p2, p1 (without vertices), p2 on a registry tracking p1. *)
Lemma planesupdated_empty_vertices_untracks_witness :
  planes (exec (addPlane plane_p1) constructed) !! "p1" ≠ None ∧
  planes (exec (dispatch (planesupdated [plane_p2; plane_p1_empty; plane_p2]))
            (exec (addPlane plane_p1) constructed)) !! "p1" = None.
Proof.
  split; [vm_compute; discriminate|].
  refine (proj1 (planesupdated_empty_vertices_untracks [plane_p2] [plane_p2]
                   plane_p1_empty (exec (addPlane plane_p1) constructed) eq_refl _)).
  intros q Hq. apply list_elem_of_singleton in Hq. rewrite Hq. discriminate.
Defined.

(** Every plane of these notifications has vertices. *)
Lemma run_tracked_identifiers_witness :
  Forall carries_vertices
    [planesadded [plane_p1; plane_p2]; planesupdated [plane_p1_grown];
     planesremoved [plane_p2]] ∧
  dom (planes (run [planesadded [plane_p1; plane_p2]; planesupdated [plane_p1_grown];
                    planesremoved [plane_p2]] constructed))
  = added_not_removed [planesadded [plane_p1; plane_p2]; planesupdated [plane_p1_grown];
                       planesremoved [plane_p2]].
Proof.
  assert (Forall carries_vertices
            [planesadded [plane_p1; plane_p2]; planesupdated [plane_p1_grown];
             planesremoved [plane_p2]]) as Hes.
  { repeat constructor; cbn [carries_vertices]; intros q Hq;
      repeat (apply elem_of_cons in Hq as [->|Hq]; [discriminate|]);
      by apply elem_of_nil in Hq. }
  split; [exact Hes|].
  exact (proj2 (run_tracked_identifiers _) Hes).
Defined.


(** Scenario D: p1 added, then updated with new vertices. *)
Lemma update_step_reuses_color_witness :
  is_Some (planes (exec (addPlane plane_p1) constructed) !! "p1") ∧
  planes (exec (removePlane "p1") (exec (addPlane plane_p1) constructed)) !! "p1" = None ∧
  ∃ o mesh,
    planes (exec (removePlane "p1" ≫= λ _, addPlane plane_p1_grown)
              (exec (addPlane plane_p1) constructed)) !! "p1" = Some o ∧
    obj_children o = [mesh] ∧
    backgroundColor (uniforms (mesh_material mesh)) = getRandomPaletteColor 0 ∧
    paletteDraws (exec (removePlane "p1" ≫= λ _, addPlane plane_p1_grown)
                    (exec (addPlane plane_p1) constructed)) = 1.
Proof.
  assert (vertices plane_p1_grown ≠ []) as Hv by discriminate.
  assert (materialMap (exec (addPlane plane_p1) constructed) !! identifier plane_p1_grown
          = Some (set_backgroundColor (getRandomPaletteColor 0)
                    (mkMaterial 1 DoubleSide true (uniforms DEFAULT_MATERIAL))))
    as Hm by (vm_compute; reflexivity).
  destruct (update_step_reuses_color plane_p1_grown _
              (exec (addPlane plane_p1) constructed) Hv Hm)
    as (_ & Hgone & _ & _ & o & mesh & Ho & Hch & Hmat & Hdraws & _).
  split.
  { destruct (planes _ !! "p1") eqn:Hlook; [by eexists|].
    vm_compute in Hlook. discriminate. }
  split; [exact Hgone|].
  exists o, mesh. split; [exact Ho|]. split; [exact Hch|].
  split; [by rewrite Hmat|].
  etrans; [exact Hdraws|]. vm_compute. reflexivity.
Defined.

(** What the [Vector3] constructor does to coordinates that are falsy: a
    point read from [-0], [NaN] and a missing number is the origin. *)
Example new_Vector3_falsy :
  new_Vector3 (Some neg_zero) (Some nan) None
  = mkVector3 (Some 0%float) (Some 0%float) (Some 0%float) ∧
  or_zero (Some neg_zero) ≠ neg_zero ∧
  or_zero (Some 0.5%float) = 0.5%float.
Proof.
  split; [reflexivity|]. split; [|reflexivity].
  intros Heq. apply (f_equal classify) in Heq. vm_compute in Heq. discriminate.
Qed.

(** A vertex list of four numbers: one triple and one number left over. *)
Definition plane_ragged : Plane :=
  mkPlane "p3" [0; 0; 0;  1]%float identity_pose.

(** Removing p1 and p2 in either order. *)
Lemma on_planesremoved_permutation_witness :
  [plane_p1; plane_p2] ≡ₚ [plane_p2; plane_p1] ∧
  exec (on_planesremoved [plane_p1; plane_p2])
       (run [planesadded [plane_p1; plane_p2]] constructed)
  = exec (on_planesremoved [plane_p2; plane_p1])
         (run [planesadded [plane_p1; plane_p2]] constructed).
Proof.
  assert ([plane_p1; plane_p2] ≡ₚ [plane_p2; plane_p1]) as Hperm
    by apply Permutation_swap.
  split; [exact Hperm|].
  exact (on_planesremoved_permutation _ _ _ Hperm).
Defined.

(** Adding and removing p1 on a registry that tracks p2. *)
Lemma addPlane_removePlane_roundtrip_witness :
  planes (exec (addPlane plane_p2) constructed) !! "p1" = None ∧
  children_allocated (exec (addPlane plane_p2) constructed) ∧
  children (exec (removePlane "p1")
              (exec (addPlane plane_p1) (exec (addPlane plane_p2) constructed)))
  = children (exec (addPlane plane_p2) constructed).
Proof.
  assert (vertices plane_p1 ≠ []) as Hv by discriminate.
  assert (planes (exec (addPlane plane_p2) constructed) !! identifier plane_p1 = None)
    as Hnone by (vm_compute; reflexivity).
  assert (children_allocated (exec (addPlane plane_p2) constructed)) as Halloc.
  { apply (addPlane_registry_inv plane_p2 constructed constructed_registry_inv). }
  split; [exact Hnone|]. split; [exact Halloc|].
  exact (proj1 (addPlane_removePlane_roundtrip plane_p1 _ Hv Hnone Halloc)).
Defined.

(** An update of p1 leaves p2 alone. *)
Lemma dispatch_frame_witness :
  ("p2" ∉ event_ids (planesupdated [plane_p1_grown])) ∧
  planes (exec (dispatch (planesupdated [plane_p1_grown]))
            (run [planesadded [plane_p1; plane_p2]] constructed)) !! "p2"
  = planes (run [planesadded [plane_p1; plane_p2]] constructed) !! "p2".
Proof.
  assert ("p2" ∉ event_ids (planesupdated [plane_p1_grown])) as Hk.
  { unfold event_ids, batch_ids. cbn. set_solver. }
  split; [exact Hk|].
  exact (proj1 (dispatch_frame (planesupdated [plane_p1_grown]) "p2" _ Hk)).
Defined.

(** p1 and p2 added, p1 updated, p2 removed and added again. *)
Lemma run_scene_synced_witness :
  device_protocol ∅
    [planesadded [plane_p1; plane_p2]; planesupdated [plane_p1_grown];
     planesremoved [plane_p2]; planesadded [plane_p2]] ∧
  update (run [planesadded [plane_p1; plane_p2]; planesupdated [plane_p1_grown];
               planesremoved [plane_p2]; planesadded [plane_p2]] constructed)
  = length (children
      (run [planesadded [plane_p1; plane_p2]; planesupdated [plane_p1_grown];
            planesremoved [plane_p2]; planesadded [plane_p2]] constructed)).
Proof.
  assert (device_protocol ∅
            [planesadded [plane_p1; plane_p2]; planesupdated [plane_p1_grown];
             planesremoved [plane_p2]; planesadded [plane_p2]]) as Hes.
  { cbn. unfold track_update, track_add, track_remove. cbn.
    repeat split; set_solver. }
  split; [exact Hes|].
  exact (proj2 (proj2 (run_scene_synced _ Hes))).
Defined.

(** The square: four points, twelve numbers, none of them [NaN] or [-0]. *)
Lemma createPlane_points_roundtrip_witness :
  Forall (λ x, or_zero (Some x) = x) (vertices plane_p1) ∧
  ∃ o mesh,
    eval (createPlane plane_p1) constructed = Some o ∧
    obj_children o = [mesh] ∧
    concat (coordinates <$> geo_vertices (mesh_geometry mesh))
      = Some <$> vertices plane_p1.
Proof.
  assert (vertices plane_p1 ≠ []) as Hv by discriminate.
  assert (Forall (λ x, or_zero (Some x) = x) (vertices plane_p1)) as Hkept
    by (repeat constructor).
  split; [exact Hkept|].
  destruct (createPlane_points_roundtrip plane_p1 constructed 4 Hv eq_refl)
    as (o & mesh & Ho & Hch & _ & _ & Hflat & _).
  exists o, mesh. split; [exact Ho|]. split; [exact Hch|exact (Hflat Hkept)].
Defined.

(** Four numbers give two points, the second padded with zeros. *)
Lemma createPlane_ragged_vertices_witness :
  length (vertices plane_ragged) mod 3 = 1 ∧
  ∃ o mesh v,
    eval (createPlane plane_ragged) constructed = Some o ∧
    obj_children o = [mesh] ∧
    length (geo_vertices (mesh_geometry mesh)) = 2 ∧
    last (geo_vertices (mesh_geometry mesh)) = Some v ∧
    vx v = Some 1%float ∧ vy v = Some 0%float ∧ vz v = Some 0%float.
Proof.
  split; [reflexivity|].
  assert (length (vertices plane_ragged) mod 3 ≠ 0) as Hmod by discriminate.
  destruct (createPlane_ragged_vertices plane_ragged constructed Hmod)
    as (o & mesh & v & x & Ho & Hch & Hlen & Hlast & Hx & Hvx & Hz & Hy & _).
  exists o, mesh, v. split; [exact Ho|]. split; [exact Hch|].
  split; [exact Hlen|]. split; [exact Hlast|].
  split; [|split; [exact (Hy eq_refl)|exact Hz]].
  rewrite Hvx. vm_compute in Hx. injection Hx as <-. reflexivity.
Defined.

(** The square has two faces over four points. *)
Lemma createPlane_faces_in_range_witness :
  ∃ o mesh,
    eval (createPlane plane_p1) constructed = Some o ∧
    obj_children o = [mesh] ∧
    length (geo_vertices (mesh_geometry mesh)) = 4 ∧
    length (geo_faces (mesh_geometry mesh)) = 2.
Proof.
  assert (vertices plane_p1 ≠ []) as Hv by discriminate.
  destruct (createPlane_faces_in_range plane_p1 constructed Hv)
    as (o & mesh & Ho & Hch & Hpoints & Hfaces & _).
  exists o, mesh. split; [exact Ho|]. split; [exact Hch|].
  split; [exact Hpoints|]. rewrite Hfaces, Hpoints. reflexivity.
Defined.

(** An update for p1 on the fresh registry. *)
Lemma update_step_untracked_witness :
  planes constructed !! "p1" = None ∧
  exec (on_planesupdated [plane_p1]) constructed
  = exec (on_planesadded [plane_p1]) constructed.
Proof.
  assert (planes constructed !! identifier plane_p1 = None) as Hnone by reflexivity.
  split; [exact Hnone|].
  exact (proj2 (update_step_untracked plane_p1 constructed Hnone)).
Defined.

End Examples.
